(** * Simple Time Tracker Invoice: a shallow embedding of the plugin's core

    Sources: [main.ts] (date normalizer, table extractor),
    [src/time-tracker-parser.ts] (entry tree processor),
    [src/invoice-generator.ts] (rendering engine, invoice numbers, file
    paths) and [src/invoice-modal.ts] (the options dialog).

    Strings are Rocq strings of 8-bit characters, read as Latin-1 code units
    of the JavaScript UTF-16 strings.  Where JavaScript reaches into its
    runtime ([new Date], [Math.random], [moment().format], [normalizePath],
    jsPDF) the runtime is a parameter of the model. *)

From Stdlib Require Import ZArith QArith Qminmax Qround List Bool Lia.
From Stdlib Require Import Strings.String Strings.Ascii Numbers.DecimalString.
Import ListNotations.

Open Scope bool_scope.
Open Scope string_scope.
Open Scope Z_scope.

(* ------------------------------------------------------------------ *)
(** ** Character classes and string helpers of the JavaScript runtime *)

Definition code (c : ascii) : Z := Z.of_nat (nat_of_ascii c).

(** [\d] *)
Definition is_digit (c : ascii) : bool := (48 <=? code c)%Z && (code c <=? 57)%Z.

Definition digit_val (c : ascii) : Z := (code c - 48)%Z.

(** [\s] restricted to Latin-1: tab, LF, VT, FF, CR, space, NBSP. *)
Definition is_ws (c : ascii) : bool :=
  let n := code c in
  ((9 <=? n) && (n <=? 13))%Z || (n =? 32)%Z || (n =? 160)%Z.

Fixpoint drop_while (p : ascii -> bool) (l : list ascii) : list ascii :=
  match l with
  | [] => []
  | c :: r => if p c then drop_while p r else l
  end.

(** [String.prototype.trim] *)
Definition trim (s : string) : string :=
  string_of_list_ascii
    (rev (drop_while is_ws (rev (drop_while is_ws (list_ascii_of_string s))))).

(** [String.prototype.split(sep)] for a one-character separator. *)
Fixpoint split (sep : ascii) (s : string) : list string :=
  match s with
  | EmptyString => [EmptyString]
  | String c s' =>
      let rest := split sep s' in
      if Ascii.eqb c sep then EmptyString :: rest
      else match rest with
           | h :: t => String c h :: t
           | [] => [String c EmptyString]
           end
  end.

(** [Array.prototype.join(sep)] *)
Fixpoint join (sep : ascii) (l : list string) : string :=
  match l with
  | [] => EmptyString
  | [x] => x
  | x :: r => x ++ String sep (join sep r)
  end.

(** [String(n)] / [n.toString()] for integers. *)
Definition Z_to_string (x : Z) : string := NilEmpty.string_of_int (Z.to_int x).

(** [s.padStart(2, '0')] *)
Definition pad2 (s : string) : string :=
  match String.length s with
  | O => "00"
  | S O => String "0" s
  | _ => s
  end.

(** [s.substring(0, n)] *)
Definition substring0 (n : nat) (s : string) : string := String.substring O n s.

(** Leading digits of [l] in base [b] (10 or 16), as values. *)
Definition hex_val (c : ascii) : option Z :=
  let n := code c in
  if (48 <=? n) && (n <=? 57) then Some (n - 48)%Z
  else if (97 <=? n) && (n <=? 102) then Some (n - 87)%Z
  else if (65 <=? n) && (n <=? 70) then Some (n - 55)%Z
  else None.

Fixpoint lead_digits (b : Z) (l : list ascii) : list Z :=
  match l with
  | [] => []
  | c :: r =>
      match hex_val c with
      | Some v => if (v <? b)%Z then v :: lead_digits b r else []
      | None => []
      end
  end.

(** [parseInt(s)] with no radix: leading white space, an optional sign,
    an optional [0x] prefix selecting base 16, then the longest run of
    digits.  [None] stands for [NaN]. *)
Definition parseInt (s : string) : option Z :=
  let l := drop_while is_ws (list_ascii_of_string s) in
  let '(sign, l1) :=
    match l with
    | c :: r => if Ascii.eqb c "-" then ((-1)%Z, r)
                else if Ascii.eqb c "+" then (1%Z, r) else (1%Z, l)
    | [] => (1%Z, l)
    end in
  let '(base, l2) :=
    match l1 with
    | c :: x :: r => if Ascii.eqb c "0" && (Ascii.eqb x "x" || Ascii.eqb x "X")
                     then (16%Z, r) else (10%Z, l1)
    | _ => (10%Z, l1)
    end in
  match lead_digits base l2 with
  | [] => None
  | ds => Some (sign * fold_left (fun a d => a * base + d) ds 0)%Z
  end.

(* ------------------------------------------------------------------ *)
(** ** Date/Time Normalizer ([parseTimeTrackerDate], main.ts) *)

(** [/^\d{2}-\d{2}-\d{2}$/.test(s)] *)
Definition date_re (s : string) : bool :=
  match s with
  | String a (String b (String c (String d (String e (String f (String g (String h EmptyString))))))) =>
      is_digit a && is_digit b && Ascii.eqb c "-" && is_digit d && is_digit e
      && Ascii.eqb f "-" && is_digit g && is_digit h
  | _ => false
  end.

(** [/^\d{2}:\d{2}:\d{2}$/.test(s)] *)
Definition time_re (s : string) : bool :=
  match s with
  | String a (String b (String c (String d (String e (String f (String g (String h EmptyString))))))) =>
      is_digit a && is_digit b && Ascii.eqb c ":" && is_digit d && is_digit e
      && Ascii.eqb f ":" && is_digit g && is_digit h
  | _ => false
  end.

Section Normalizer.

(** [new Date(s).getTime()]: [None] is [NaN] (an Invalid Date). *)
Variable date_parse : string -> option Z.

(** [parseTimeTrackerDate(dateStr)]; the argument is [string | undefined].
    When a component is [NaN] (impossible after the regex test) every
    comparison is false and the ISO string holds ["NaN"], which [Date]
    rejects; that path returns [None] directly. *)
Definition parseTimeTrackerDate (dateStr : option string) : option string :=
  match dateStr with
  | None => None
  | Some s =>
    if String.eqb s "" || String.eqb (trim s) "" then None else
    match split " " s with
    | [datePart; timePart] =>
      if negb (date_re datePart) || negb (time_re timePart) then None else
      match split "-" datePart with
      | [c0; c1; c2] =>
        match parseInt c0, parseInt c1, parseInt c2 with
        | Some year0, Some month, Some day =>
          if ((month <? 1) || (12 <? month) || (day <? 1) || (31 <? day))%Z then None else
          let year := if (year0 <? 50)%Z then (year0 + 2000)%Z else (year0 + 1900)%Z in
          if ((year <? 1900) || (2100 <? year))%Z then None else
          let isoDate := Z_to_string year ++ "-" ++ pad2 (Z_to_string month) ++ "-"
                         ++ pad2 (Z_to_string day) ++ "T" ++ timePart in
          match date_parse isoDate with
          | None => None
          | Some _ => Some isoDate
          end
        | _, _, _ => None
        end
      | _ => None
      end
    | _ => None
    end
  end.

End Normalizer.

(* ------------------------------------------------------------------ *)
(** ** A concrete [Date] parser for the normalizer's output form

    [new Date("YYYY-MM-DDTHH:mm:ss")] as V8 implements the ECMAScript
    date-time string format: month 1..12, day 1..31 whatever the month
    (out-of-month days roll over), hour 0..24 with 24 only at 24:00:00,
    minute and second 0..59.  The time is read with a zero offset from UTC.
    Strings of any other form are treated as unparseable. *)

Definition days_from_civil (y m d : Z) : Z :=
  let y' := if (m <=? 2)%Z then (y - 1)%Z else y in
  let era := (y' / 400)%Z in
  let yoe := (y' - era * 400)%Z in
  let mp := if (2 <? m)%Z then (m - 3)%Z else (m + 9)%Z in
  let doy := ((153 * mp + 2) / 5 + d - 1)%Z in
  let doe := (yoe * 365 + yoe / 4 - yoe / 100 + doy)%Z in
  (era * 146097 + doe - 719468)%Z.

Definition num2 (a b : ascii) : Z := (10 * digit_val a + digit_val b)%Z.

Definition iso_date_parse (s : string) : option Z :=
  match list_ascii_of_string s with
  | [y1; y2; y3; y4; s1; m1; m2; s2; d1; d2; t; h1; h2; s3; i1; i2; s4; e1; e2] =>
    if forallb is_digit [y1; y2; y3; y4; m1; m2; d1; d2; h1; h2; i1; i2; e1; e2]
       && Ascii.eqb s1 "-" && Ascii.eqb s2 "-" && Ascii.eqb t "T"
       && Ascii.eqb s3 ":" && Ascii.eqb s4 ":" then
      let y := (100 * num2 y1 y2 + num2 y3 y4)%Z in
      let mo := num2 m1 m2 in
      let d := num2 d1 d2 in
      let h := num2 h1 h2 in
      let mi := num2 i1 i2 in
      let se := num2 e1 e2 in
      if ((1 <=? mo) && (mo <=? 12) && (1 <=? d) && (d <=? 31)
          && (mi <=? 59) && (se <=? 59)
          && ((h <=? 23) || ((h =? 24) && (mi =? 0) && (se =? 0))))%Z
      then Some ((days_from_civil y mo d * 86400 + h * 3600 + mi * 60 + se) * 1000)%Z
      else None
    else None
  | _ => None
  end.

(** The input shape [YY-MM-DD HH:MM:SS] the normalizer accepts, from its
    date characters and its time token. *)
Definition tracker_text (y1 y2 m1 m2 d1 d2 : ascii) (t : string) : string :=
  String y1 (String y2 (String "-" (String m1 (String m2 (String "-"
    (String d1 (String d2 (String " " t)))))))).

(** The canonical string [YYYY-MM-DDTHH:MM:SS] built from the same pieces,
    the century chosen from the two-digit year. *)
Definition canonical_of (y1 y2 m1 m2 d1 d2 : ascii) (t : string) : string :=
  (if num2 y1 y2 <? 50 then "20" else "19") ++
  String y1 (String y2 (String "-" (String m1 (String m2 (String "-"
    (String d1 (String d2 (String "T" t)))))))).

(* ------------------------------------------------------------------ *)
(** ** Table-to-Entry Extractor ([extractDataFromTable], main.ts) *)

(** The [<span>] of a cell: its text and its [style.marginLeft]. *)
Record Span : Type := mkSpan {
  textContent : string;
  marginLeft : string
}.

(** A [<td>] is seen through [querySelector('span')]; a row [<tr>] is the
    list of its cells and a table the list of its rows. *)
Definition Cell : Type := option Span.
Definition Row : Type := list Cell.

(** The record pushed for each qualifying row. *)
Record RawRecord : Type := mkRecord {
  rec_name : string;
  rec_startTime : option string;
  rec_endTime : option string;
  rec_level : Z
}.

(** [text.replace(/[\u0000-\u001F\u007F-\u009F]/g, '').replace(/[<>]/g, '')] keeps
    these characters. *)
Definition sanitize_keep (c : ascii) : bool :=
  let n := code c in
  negb (n <=? 31) && negb ((127 <=? n) && (n <=? 159))
  && negb (Ascii.eqb c "<") && negb (Ascii.eqb c ">").

(** [sanitizeText(text)] *)
Definition sanitizeText (text : string) : string :=
  if String.eqb text "" then "" else
  substring0 500 (string_of_list_ascii (filter sanitize_keep (list_ascii_of_string text))).

(** [s.replace(pat, rep)] with a non-empty string pattern: the first
    occurrence only. *)
Fixpoint replace_first (pat rep s : string) : string :=
  if String.prefix pat s
  then rep ++ String.substring (String.length pat) (String.length s - String.length pat) s
  else match s with
       | EmptyString => EmptyString
       | String c s' => String c (replace_first pat rep s')
       end.

(** [x?.textContent?.trim()] *)
Definition span_text (c : Cell) : option string :=
  match c with
  | Some sp => Some (trim (textContent sp))
  | None => None
  end.

(** [a || b] on an optional string. *)
Definition or_default (o : option string) (d : string) : string :=
  match o with
  | Some s => if String.eqb s "" then d else s
  | None => d
  end.

Section Extractor.

Variable date_parse : string -> option Z.

(** The body of the loop for a row with at least four cells. *)
Definition row_entry (cells : Row) : RawRecord :=
  let nameSpan := nth O cells None in
  let name := sanitizeText (or_default (span_text nameSpan) "Unknown Task") in
  let margin := or_default (option_map marginLeft nameSpan) "0em" in
  let level := Z.min (Z.max match parseInt (replace_first "em" "" margin) with
                            | Some n => n
                            | None => 0
                            end 0) 10 in
  let startTimeText := span_text (nth 1 cells None) in
  let endTimeText := span_text (nth 2 cells None) in
  {| rec_name := name;
     rec_startTime := parseTimeTrackerDate date_parse startTimeText;
     rec_endTime := parseTimeTrackerDate date_parse endTimeText;
     rec_level := level |}.

(** One iteration [i] of [for (let i = 1; i < Math.min(rows.length, 1001); i++)]. *)
Definition extract_step (rows : list Row) (entries : list RawRecord) (i : nat)
    : list RawRecord :=
  match nth_error rows i with
  | Some cells => if (4 <=? List.length cells)%nat then (entries ++ [row_entry cells])%list
                  else entries
  | None => entries
  end.

(** The [entries] array after the loop. *)
Definition extract_entries (rows : list Row) : list RawRecord :=
  fold_left (extract_step rows) (seq 1 (Nat.min (List.length rows) 1001 - 1)) [].

(** [extractDataFromTable(table)]: [Some entries] stands for the JSON
    envelope [{ entries }], [None] for [null]. *)
Definition extractDataFromTable (rows : list Row) : option (list RawRecord) :=
  let entries := extract_entries rows in
  if (0 <? List.length entries)%nat then Some entries else None.

End Extractor.

(* ------------------------------------------------------------------ *)
(** ** Entry Tree Processor ([TimeTrackerParser], time-tracker-parser.ts) *)

(** An entry of the parsed JSON envelope; a missing [subEntries] behaves as
    the empty list (the code only recurses when it is present and
    non-empty). *)
#[warnings="-register-all"]
Inductive RawEntry : Type := mkRaw {
  raw_name : string;
  raw_startTime : option string;
  raw_endTime : option string;
  raw_subEntries : list RawEntry
}.

(** The parser's [TimeEntry]; [duration = None] is [NaN]. *)
Record ParsedEntry : Type := mkParsed {
  p_name : string;
  p_startTime : option string;
  p_endTime : option string;
  p_level : Z;
  p_duration : option Q
}.

Section Parser.

Variable date_parse : string -> option Z.

(** [calculateDuration(startTime, endTime)]: no clamping. *)
Definition calculateDuration (startTime endTime : option string) : option Q :=
  match startTime, endTime with
  | Some s, Some t =>
    if String.eqb s "" || String.eqb t "" then Some 0%Q else
    match date_parse s, date_parse t with
    | Some a, Some b => Some (inject_Z (b - a) / inject_Z (1000 * 60 * 60))%Q
    | _, _ => None
    end
  | _, _ => Some 0%Q
  end.

Definition processEntry (entry : RawEntry) (level : Z) : ParsedEntry :=
  {| p_name := raw_name entry;
     p_startTime := raw_startTime entry;
     p_endTime := raw_endTime entry;
     p_level := level;
     p_duration := calculateDuration (raw_startTime entry) (raw_endTime entry) |}.

(** One iteration of the loop of [processEntries]: push the processed
    entry, then the processed sub-entries at [level + 1]. *)
Fixpoint processTree (entry : RawEntry) (level : Z) : list ParsedEntry :=
  match entry with
  | mkRaw _ _ _ subEntries =>
      processEntry entry level
        :: match subEntries with
           | [] => []
           | _ :: _ => flat_map (fun e => processTree e (level + 1)) subEntries
           end
  end.

(** [processEntries(entries, level)]: the loop over [entries] in order. *)
Definition processEntries (entries : list RawEntry) (level : Z) : list ParsedEntry :=
  flat_map (fun entry => processTree entry level) entries.

End Parser.

(** Number of entries of a forest, sub-entries included. *)
Fixpoint count_tree (entry : RawEntry) : nat :=
  match entry with
  | mkRaw _ _ _ subEntries => S (list_sum (map count_tree subEntries))
  end.

Definition count_entries (entries : list RawEntry) : nat :=
  list_sum (map count_tree entries).

(* ------------------------------------------------------------------ *)
(** ** Durations of the rendering engine ([InvoiceGenerator]) *)

(** The generator's [TimeEntry]. *)
Record TimeEntry : Type := mkEntry {
  name : string;
  startTime : option string;
  endTime : option string;
  level : option Z
}.

Section Durations.

Variable date_parse : string -> option Z.

(** [calculateEntryDuration(entry)]: [0] when an endpoint is falsy ([null]
    or empty) or does not parse; otherwise the difference in hours clamped
    to [0, 24 * 365]. *)
Definition calculateEntryDuration (entry : TimeEntry) : Q :=
  match startTime entry, endTime entry with
  | Some s, Some t =>
    if String.eqb s "" || String.eqb t "" then 0%Q else
    match date_parse s, date_parse t with
    | Some st, Some en =>
        let diffMs := (en - st)%Z in
        let diffHours := (inject_Z diffMs / inject_Z (1000 * 60 * 60))%Q in
        Qmax 0 (Qmin diffHours (inject_Z (24 * 365)))
    | _, _ => 0%Q
    end
  | _, _ => 0%Q
  end.

(** [calculateTotalHours(entries)]: [entries.reduce((t, e) => t + d(e), 0)]. *)
Definition calculateTotalHours (entries : list TimeEntry) : Q :=
  fold_left (fun total entry => total + calculateEntryDuration entry)%Q entries 0%Q.

End Durations.

(* ------------------------------------------------------------------ *)
(** ** Numbers, options and settings of the rendering engine *)

(** A JavaScript number as the engine uses it: a finite value, the two
    infinities or [NaN]. *)
Inductive jsnum : Type :=
| JFin (q : Q)
| JPosInf
| JNegInf
| JNaN.

Definition js_isNaN (x : jsnum) : bool :=
  match x with JNaN => true | _ => false end.

Definition js_isFinite (x : jsnum) : bool :=
  match x with JFin _ => true | _ => false end.

(** [x > 0] *)
Definition js_gt0 (x : jsnum) : bool :=
  match x with
  | JFin q => negb (Qle_bool q 0)
  | JPosInf => true
  | _ => false
  end.

(** [x * y] *)
Definition js_mul (x y : jsnum) : jsnum :=
  let sgn (q : Q) (pos neg : jsnum) :=
    if Qeq_bool q 0 then JNaN else if Qle_bool q 0 then neg else pos in
  match x, y with
  | JNaN, _ | _, JNaN => JNaN
  | JFin a, JFin b => JFin (a * b)
  | JFin a, JPosInf | JPosInf, JFin a => sgn a JPosInf JNegInf
  | JFin a, JNegInf | JNegInf, JFin a => sgn a JNegInf JPosInf
  | JPosInf, JPosInf | JNegInf, JNegInf => JPosInf
  | JPosInf, JNegInf | JNegInf, JPosInf => JNegInf
  end.

(** [InvoiceOptions] *)
Record InvoiceOptions : Type := mkOptions {
  flatRateAmount : option jsnum
}.

(** The flat-rate text field of [InvoiceOptionsModal.onOpen]: [onChange]
    on a value whose [parseFloat] is [amount]. *)
Definition modal_onChange (amount : jsnum) (result : InvoiceOptions) : InvoiceOptions :=
  if negb (js_isNaN amount) && js_gt0 amount
  then {| flatRateAmount := Some amount |}
  else {| flatRateAmount := None |}.

(** [InvoiceSettings] *)
Record InvoiceSettings : Type := mkSettings {
  companyName : string;
  companyAddress : string;
  companyLogo : string;
  hourlyRate : jsnum;
  billingTerms : string;
  memo : string;
  invoiceDirectory : string
}.

(** [new Date()] seen through [getFullYear], [getMonth] and [getDate]. *)
Record Now : Type := mkNow {
  now_year : Z;
  now_month : Z;
  now_day : Z
}.

(** [generateInvoiceNumber()], with [Math.random()] returning [r]. *)
Definition generateInvoiceNumber (now : Now) (r : Q) : string :=
  let year := now_year now in
  let month := pad2 (Z_to_string (now_month now + 1)) in
  let day := pad2 (Z_to_string (now_day now)) in
  let timestamp := Qfloor (r * inject_Z 10000) in
  Z_to_string year ++ "-" ++ month ++ "-" ++ day ++ "-" ++ Z_to_string timestamp.

(** [sanitizeFilename(filename)] *)
Definition filename_unsafe (c : ascii) : bool :=
  (code c <=? 31) || Ascii.eqb c "<" || Ascii.eqb c ">" || Ascii.eqb c ":"
  || Ascii.eqb c (ascii_of_nat 34) || Ascii.eqb c "/" || Ascii.eqb c "\" || Ascii.eqb c "|"
  || Ascii.eqb c "?" || Ascii.eqb c "*".

(** [s.replace(/P+/g, r)]: each maximal run of characters satisfying [p]
    becomes one [r]; [prev] says whether the previous character was in a run. *)
Fixpoint replace_runs (p : ascii -> bool) (r : ascii) (prev : bool) (l : list ascii)
    : list ascii :=
  match l with
  | [] => []
  | c :: t =>
      if p c then (if prev then replace_runs p r true t else r :: replace_runs p r true t)
      else c :: replace_runs p r false t
  end.

(** [s.replace(/^-|-$/g, '')] *)
Definition strip_hyphens (l : list ascii) : list ascii :=
  let l1 := match l with
            | c :: t => if Ascii.eqb c "-" then t else l
            | [] => []
            end in
  match rev l1 with
  | c :: t => if Ascii.eqb c "-" then rev t else l1
  | [] => []
  end.

Definition sanitizeFilename (filename : string) : string :=
  let l0 := list_ascii_of_string filename in
  let l1 := map (fun c => if filename_unsafe c then "-"%char else c) l0 in
  let l2 := replace_runs is_ws "-" false l1 in
  let l3 := replace_runs (fun c => Ascii.eqb c "-") "-" false l2 in
  let l4 := strip_hyphens l3 in
  substring0 50 (string_of_list_ascii l4).

(* ------------------------------------------------------------------ *)
(** ** The document drawn by [addPDFContent] *)

(** Text of a cell or of a [doc.text] call: a literal string,
    [x.toFixed(2)], or the locale rendering of an instant
    ([toLocaleDateString] + [toLocaleTimeString] of [formatTime]). *)
Inductive CellText : Type :=
| CStr (s : string)
| CFixed2 (x : jsnum)
| CTime (ms : Z).

(** A vertical position: absolute, or relative to
    [lastAutoTable.finalY + 20], which jsPDF computes while laying out. *)
Inductive Ypos : Type :=
| Abs (y : Z)
| AfterTable (dy : Z).

(** The jsPDF calls of [addPDFContent], in order; table styles omitted. *)
Inductive DocOp : Type :=
| SetFontSize (size : Z)
| TextAt (t : CellText) (x : Z) (y : Ypos) (alignRight : bool)
| LineAt (x1 : Z) (y1 : Ypos) (x2 : Z) (y2 : Ypos)
| AutoTable (head : list string) (body : list (list CellText)) (startY : Z).

Inductive Result (A : Type) : Type :=
| Ok (a : A)
| Err (msg : string).
Arguments Ok {A} a.
Arguments Err {A} msg.

Definition newline : ascii := ascii_of_nat 10.

(** [escapeText(text)] *)
Definition escapeText (text : string) : string :=
  if String.eqb text "" then "" else
  substring0 1000 (string_of_list_ascii
    (filter (fun c => let n := code c in negb (n <=? 31) && negb ((127 <=? n) && (n <=? 159)))
            (list_ascii_of_string text))).

(** [s.repeat(n)] for [n >= 0]. *)
Fixpoint repeat_str (s : string) (n : nat) : string :=
  match n with
  | O => ""
  | S k => s ++ repeat_str s k
  end.

Section Rendering.

Variable date_parse : string -> option Z.

Definition isFlatRate (options : InvoiceOptions) : bool :=
  match flatRateAmount options with Some _ => true | None => false end.

(** [const subtotal = isFlateRate ? options.flatRateAmount : totalHours * rate] *)
Definition subtotal (settings : InvoiceSettings) (entries : list TimeEntry)
    (options : InvoiceOptions) : jsnum :=
  match flatRateAmount options with
  | Some amount => amount
  | None => js_mul (JFin (calculateTotalHours date_parse entries)) (hourlyRate settings)
  end.

(** [formatTime(timeString)] *)
Definition formatTime (timeString : option string) : CellText :=
  match timeString with
  | None => CStr "-"
  | Some s => if String.eqb s "" then CStr "-" else
              match date_parse s with
              | None => CStr "-"
              | Some ms => CTime ms
              end
  end.

(** The callback of [entries.map] building one table row; a negative level
    makes [repeat] throw a [RangeError]. *)
Definition tableRow (settings : InvoiceSettings) (isFlateRate : bool) (entry : TimeEntry)
    : Result (list CellText) :=
  let duration := calculateEntryDuration date_parse entry in
  let n := Z.min match level entry with Some l => l | None => 0 end 10 in
  if n <? 0 then Err ("Invalid count value: " ++ Z_to_string n) else
  let indent := repeat_str "  " (Z.to_nat n) in
  if isFlateRate then
    Ok [CStr (escapeText (indent ++ name entry)); formatTime (startTime entry);
        formatTime (endTime entry); CFixed2 (JFin duration); CStr "-"; CStr "-"]
  else
    let amount := js_mul (JFin duration) (hourlyRate settings) in
    Ok [CStr (escapeText (indent ++ name entry)); formatTime (startTime entry);
        formatTime (endTime entry); CFixed2 (JFin duration);
        CFixed2 (hourlyRate settings); CFixed2 amount].

Fixpoint tableData (settings : InvoiceSettings) (isFlateRate : bool) (entries : list TimeEntry)
    : Result (list (list CellText)) :=
  match entries with
  | [] => Ok []
  | e :: rest =>
      match tableRow settings isFlateRate e with
      | Err m => Err m
      | Ok row => match tableData settings isFlateRate rest with
                  | Err m => Err m
                  | Ok rows => Ok (row :: rows)
                  end
      end
  end.

Definition lines_ops (text : string) (y0 : Ypos) : list DocOp :=
  let fix go (ls : list string) (i : Z) :=
    match ls with
    | [] => []
    | l :: r => TextAt (CStr (escapeText l)) 20
                  (match y0 with Abs y => Abs (y + i * 5) | AfterTable y => AfterTable (y + i * 5) end)
                  false :: go r (i + 1)
    end in
  go (split newline text) 0.

(** [addPDFContent(doc, entries, options)]: the calls made on [doc], given
    the invoice number drawn at its start and [new Date().toLocaleDateString()]. *)
Definition addPDFContent (settings : InvoiceSettings) (entries : list TimeEntry)
    (options : InvoiceOptions) (invoiceNumber invoiceDate : string) : Result (list DocOp) :=
  let totalHours := calculateTotalHours date_parse entries in
  let isFlateRate := isFlatRate options in
  let sub := subtotal settings entries options in
  let header :=
    ([SetFontSize 24; TextAt (CStr "INVOICE") 200 (Abs 30) true; SetFontSize 16;
     TextAt (CStr (escapeText (if String.eqb (companyName settings) "" then "Your Company"
                               else companyName settings))) 20 (Abs 30) false]
    ++ (if String.eqb (companyAddress settings) "" then []
        else SetFontSize 10 :: lines_ops (companyAddress settings) (Abs 40))
    ++ [SetFontSize 10;
        TextAt (CStr ("Invoice #: " ++ escapeText invoiceNumber)) 200 (Abs 45) true;
        TextAt (CStr ("Date: " ++ invoiceDate)) 200 (Abs 52) true])%list in
  match tableData settings isFlateRate entries with
  | Err m => Err m
  | Ok body =>
    let summary :=
      ([SetFontSize 10;
       TextAt (CStr "Total Hours:") 140 (AfterTable 0) false;
       TextAt (CFixed2 (JFin totalHours)) 190 (AfterTable 0) true]
      ++ (match flatRateAmount options with
          | Some amount => [TextAt (CStr "Project Rate:") 140 (AfterTable 7) false;
                            TextAt (CFixed2 amount) 190 (AfterTable 7) true]
          | None => [TextAt (CStr "Hourly Rate:") 140 (AfterTable 7) false;
                     TextAt (CFixed2 (hourlyRate settings)) 190 (AfterTable 7) true]
          end)
      ++ [LineAt 140 (AfterTable 12) 190 (AfterTable 12); SetFontSize 12;
          TextAt (CStr "Total Amount:") 140 (AfterTable 20) false;
          TextAt (CFixed2 sub) 190 (AfterTable 20) true])%list in
    let memoLines := split newline (memo settings) in
    let notes :=
      if String.eqb (memo settings) "" then []
      else ([SetFontSize 12; TextAt (CStr "Notes:") 20 (AfterTable 35) false; SetFontSize 10]
            ++ lines_ops (memo settings) (AfterTable (35 + 7)))%list in
    let notesY := if String.eqb (memo settings) "" then 35
                  else 35 + 7 + Z.of_nat (List.length memoLines) * 5 + 10 in
    Ok ((header
         ++ [AutoTable ["Task"; "Start Time"; "End Time"; "Hours"; "Rate"; "Amount"] body 70]
         ++ summary ++ notes
         ++ [SetFontSize 10;
             TextAt (CStr ("Payment Terms: " ++ escapeText (billingTerms settings))) 20
               (AfterTable notesY) false;
             TextAt (CStr "Thank you for your business!") 20 (AfterTable (notesY + 7)) false])%list)
  end.

End Rendering.

(* ------------------------------------------------------------------ *)
(** ** Invoice generation ([generateInvoice]): state and errors *)

Definition Buffer : Type := list Byte.byte.

(** The vault as [adapter.exists], [createFolder] and [createBinary] see it. *)
Record Vault : Type := mkVault {
  folders : list string;
  files : list (string * Buffer)
}.

(** The state an invocation threads: the vault and the stream of
    [Math.random()] results with the number of draws made so far. *)
Record GenState : Type := mkState {
  vault : Vault;
  rng : nat -> Q;
  draws : nat
}.

(** An asynchronous method that may throw an [Error] with a message. *)
Definition M (A : Type) : Type := GenState -> Result A * GenState.

Definition ret {A : Type} (a : A) : M A := fun st => (Ok a, st).

Definition bind {A B : Type} (m : M A) (k : A -> M B) : M B :=
  fun st => match m st with
            | (Ok a, st') => k a st'
            | (Err e, st') => (Err e, st')
            end.

Definition throw {A : Type} (msg : string) : M A := fun st => (Err msg, st).

(** [try { m } catch (error) { h(error.message) }] *)
Definition catch {A : Type} (m : M A) (h : string -> M A) : M A :=
  fun st => match m st with
            | (Ok a, st') => (Ok a, st')
            | (Err e, st') => h e st'
            end.

Notation "x <-- m ;; k" := (bind m (fun x => k))
  (at level 61, m at next level, right associativity).
Notation "m ;;; k" := (bind m (fun _ => k)) (at level 61, right associativity).

(** [Math.random()] *)
Definition random : M Q :=
  fun st => (Ok (rng st (draws st)),
             {| vault := vault st; rng := rng st; draws := S (draws st) |}).

Definition vault_exists (p : string) (v : Vault) : bool :=
  existsb (String.eqb p) (folders v) || existsb (String.eqb p) (map fst (files v)).

(** [vault.adapter.exists(p)] *)
Definition existsM (p : string) : M bool := fun st => (Ok (vault_exists p (vault st)), st).

(** [vault.createFolder(p)] *)
Definition createFolder (p : string) : M unit :=
  fun st => if vault_exists p (vault st) then (Err "Folder already exists.", st)
            else (Ok tt, {| vault := {| folders := p :: folders (vault st);
                                        files := files (vault st) |};
                            rng := rng st; draws := draws st |}).

(** [vault.createBinary(p, data)] *)
Definition createBinary (p : string) (data : Buffer) : M unit :=
  fun st => if vault_exists p (vault st) then (Err "File already exists.", st)
            else (Ok tt, {| vault := {| folders := folders (vault st);
                                        files := (p, data) :: files (vault st) |};
                            rng := rng st; draws := draws st |}).

(** [s.includes(sub)] *)
Fixpoint includes (s sub : string) : bool :=
  String.prefix sub s ||
  match s with
  | EmptyString => false
  | String _ s' => includes s' sub
  end.

(** [catch (error) { if (!error.message.includes("already exists")) throw error; }] *)
Definition ignore_already_exists (m : M unit) : M unit :=
  catch m (fun e => if includes e "already exists" then ret tt else throw e).

Section Generator.

Variable date_parse : string -> option Z.
(** jsPDF: drawing the calls on a fresh document and
    [doc.output('arraybuffer')]; [Err] is an exception it throws. *)
Variable jspdf_output : list DocOp -> Result Buffer.
(** [moment().format(template)] *)
Variable moment_format : Now -> string -> string.
(** Obsidian's [normalizePath] *)
Variable normalizePath : string -> string.
Variable now : Now.
(** [new Date().toLocaleDateString()] *)
Variable invoiceDate : string.

Definition generateInvoiceNumberM : M string :=
  r <-- random ;; ret (generateInvoiceNumber now r).

(** The body of the [try] of [generatePDF] once the invoice number is drawn:
    [addPDFContent] and [doc.output]. *)
Definition layoutPDF (settings : InvoiceSettings) (entries : list TimeEntry)
    (options : InvoiceOptions) (invoiceNumber : string) : Result Buffer :=
  match addPDFContent date_parse settings entries options invoiceNumber invoiceDate with
  | Err m => Err m
  | Ok ops => jspdf_output ops
  end.

(** [generatePDF(entries, options)] *)
Definition generatePDF (settings : InvoiceSettings) (entries : list TimeEntry)
    (options : InvoiceOptions) : M Buffer :=
  invoiceNumber <-- generateInvoiceNumberM ;;
  match layoutPDF settings entries options invoiceNumber with
  | Ok buf => ret buf
  | Err m => throw ("PDF generation failed: " ++ m)
  end.

(** The path [generateFilePath] returns for a given invoice number. *)
Definition filePathFor (settings : InvoiceSettings) (invoiceNumber : string) : string :=
  let directory := moment_format now (or_default (Some (invoiceDirectory settings))
                                                 "Invoices/YYYY/MM") in
  let company := or_default (Some (companyName settings)) "Company" in
  let filename := sanitizeFilename company ++ "-invoice-" ++ invoiceNumber ++ ".pdf" in
  normalizePath (directory ++ "/" ++ filename).

(** [generateFilePath()] *)
Definition generateFilePath (settings : InvoiceSettings) : M string :=
  invoiceNumber <-- generateInvoiceNumberM ;;
  ret (filePathFor settings invoiceNumber).

(** The loop of [createDirectoryRecursive], from [currentPath]. *)
Fixpoint createDirectoryLoop (parts : list string) (currentPath : string) : M unit :=
  match parts with
  | [] => ret tt
  | part :: rest =>
      let cur := if String.eqb currentPath "" then part else currentPath ++ "/" ++ part in
      let normalizedPath := normalizePath cur in
      ex <-- existsM normalizedPath ;;
      (if ex then ret tt else ignore_already_exists (createFolder normalizedPath)) ;;;
      createDirectoryLoop rest cur
  end.

Definition createDirectoryRecursive (dirPath : string) : M unit :=
  createDirectoryLoop (filter (fun p => negb (String.eqb p "")) (split "/" dirPath)) "".

(** [ensureDirectoryExists(filePath)] *)
Definition ensureDirectoryExists (filePath : string) : M unit :=
  let pathParts := removelast (split "/" filePath) in
  match pathParts with
  | [] => ret tt
  | _ :: _ =>
      let dirPath := normalizePath (join "/" pathParts) in
      ex <-- existsM dirPath ;;
      if ex then ret tt else ignore_already_exists (createDirectoryRecursive dirPath)
  end.

(** Saving and opening the generated document; the notice and
    [leaf.openFile] change nothing the model tracks. *)
Definition persist (filePath : string) (pdfBuffer : Buffer) : M unit :=
  ensureDirectoryExists filePath ;;;
  createBinary filePath pdfBuffer ;;;
  ret tt.

(** [generateInvoice(entries, options)] *)
Definition generateInvoice (settings : InvoiceSettings) (entries : list TimeEntry)
    (options : InvoiceOptions) : M unit :=
  catch (pdfBuffer <-- generatePDF settings entries options ;;
         filePath <-- generateFilePath settings ;;
         persist filePath pdfBuffer)
        (fun m => throw ("Failed to generate invoice: " ++ m)).

End Generator.

(** [DEFAULT_SETTINGS] of main.ts. *)
Definition DEFAULT_SETTINGS : InvoiceSettings :=
  {| companyName := ""; companyAddress := ""; companyLogo := "";
     hourlyRate := JFin 100; billingTerms := "Net 30"; memo := "";
     invoiceDirectory := "Invoices/YYYY/MM" |}.

(* ------------------------------------------------------------------ *)
(** ** From the table to the generator ([addInvoiceButton], main.ts) *)

(** [JSON.parse(JSON.stringify({ entries }))] as [TimeTrackerParser.parse]
    reads it: each record is an object with its [name], [startTime],
    [endTime] (strings or [null]) and [level], and no [subEntries].  The
    string always parses, so the [catch] of [parse] is not reached. *)
Definition envelope_entry (r : RawRecord) : RawEntry :=
  mkRaw (rec_name r) (rec_startTime r) (rec_endTime r) [].

(** [parser.parse(jsonData)] on the JSON built by [extractDataFromTable]. *)
Definition parseEnvelope (date_parse : string -> option Z) (records : list RawRecord)
    : list ParsedEntry :=
  processEntries date_parse (map envelope_entry records) 0.

(** A parser entry handed to [generator.generateInvoice(entries, options)]:
    the generator reads its name, times and level. *)
Definition generatorEntry (p : ParsedEntry) : TimeEntry :=
  mkEntry (p_name p) (p_startTime p) (p_endTime p) (Some (p_level p)).

(** [getTotalHours(entries)]: [entry.duration || 0] counts [NaN] as 0. *)
Definition getTotalHours (entries : list ParsedEntry) : Q :=
  fold_left (fun total entry => total + match p_duration entry with
                                        | Some d => d
                                        | None => 0
                                        end)%Q entries 0%Q.

(* ------------------------------------------------------------------ *)
(** ** The settings tab ([InvoiceSettingsTab.display], settings.ts) *)

(** [rate >= 0] *)
Definition js_ge0 (x : jsnum) : bool :=
  match x with
  | JFin q => Qle_bool 0 q
  | JPosInf => true
  | _ => false
  end.

(** One [onChange] of a field of the settings tab; the hourly-rate field
    carries [parseFloat(value)]. *)
Inductive SettingsEdit : Type :=
| EditCompanyName (value : string)
| EditCompanyAddress (value : string)
| EditHourlyRate (rate : jsnum)
| EditBillingTerms (value : string)
| EditMemo (value : string)
| EditInvoiceDirectory (value : string).

(** The effect of one [onChange] on [this.plugin.settings]. *)
Definition settings_onChange (edit : SettingsEdit) (s : InvoiceSettings) : InvoiceSettings :=
  match edit with
  | EditCompanyName value =>
      mkSettings value (companyAddress s) (companyLogo s) (hourlyRate s)
                 (billingTerms s) (memo s) (invoiceDirectory s)
  | EditCompanyAddress value =>
      mkSettings (companyName s) value (companyLogo s) (hourlyRate s)
                 (billingTerms s) (memo s) (invoiceDirectory s)
  | EditHourlyRate rate =>
      if negb (js_isNaN rate) && js_ge0 rate
      then mkSettings (companyName s) (companyAddress s) (companyLogo s) rate
                      (billingTerms s) (memo s) (invoiceDirectory s)
      else s
  | EditBillingTerms value =>
      mkSettings (companyName s) (companyAddress s) (companyLogo s) (hourlyRate s)
                 value (memo s) (invoiceDirectory s)
  | EditMemo value =>
      mkSettings (companyName s) (companyAddress s) (companyLogo s) (hourlyRate s)
                 (billingTerms s) value (invoiceDirectory s)
  | EditInvoiceDirectory value =>
      mkSettings (companyName s) (companyAddress s) (companyLogo s) (hourlyRate s)
                 (billingTerms s) (memo s) (or_default (Some value) "Invoices/YYYY/MM")
  end.

(** The settings after a sequence of edits, in order. *)
Definition settings_edits (edits : list SettingsEdit) (s : InvoiceSettings) : InvoiceSettings :=
  fold_left (fun s e => settings_onChange e s) edits s.

(** The [result] of [InvoiceOptionsModal], initially [{}], after the
    flat-rate field received the parsed values [amounts] in turn: what
    [onSubmit] is given. *)
Definition modal_result (amounts : list jsnum) : InvoiceOptions :=
  fold_left (fun r a => modal_onChange a r) amounts {| flatRateAmount := None |}.

(* ------------------------------------------------------------------ *)
(** ** Predicates used to state properties of the code *)

(** No two hyphens in a row. *)
Definition no_hyphen_pair (l : list ascii) : Prop :=
  forall p q, l <> (p ++ "-"%char :: "-"%char :: q)%list.

(** A timestamp in the normalizer's canonical form [YYYY-MM-DDTHH:MM:SS]
    with a month in 1..12 and a day in 1..31, which [Date.parse] accepts. *)
Definition canonical_timestamp (date_parse : string -> option Z) (t : string) : Prop :=
  exists y1 y2 m1 m2 d1 d2 tm,
    forallb is_digit [y1; y2; m1; m2; d1; d2] = true /\ time_re tm = true /\
    1 <= num2 m1 m2 <= 12 /\ 1 <= num2 d1 d2 <= 31 /\
    t = canonical_of y1 y2 m1 m2 d1 d2 tm /\ date_parse t <> None.

(** A run of vault operations that keeps the files, the random stream and
    every path that exists. *)
Definition vault_grows (st st' : GenState) : Prop :=
  files (vault st') = files (vault st) /\
  (forall p, vault_exists p (vault st) = true -> vault_exists p (vault st') = true) /\
  rng st' = rng st /\ draws st' = draws st.

(** The update of [currentPath] in [createDirectoryRecursive]:
    [currentPath ? `${currentPath}/${part}` : part]. *)
Definition next_path (currentPath part : string) : string :=
  if String.eqb currentPath "" then part else currentPath ++ "/" ++ part.


(* ================================================================== *)
(** * Lemmas about the string helpers *)

Lemma digit_cases (c : ascii) :
  is_digit c = true -> In c ["0"; "1"; "2"; "3"; "4"; "5"; "6"; "7"; "8"; "9"]%char.
Proof.
  destruct c as [[] [] [] [] [] [] [] []]; vm_compute; intros H;
    try discriminate H; tauto.
Qed.

Ltac digit_case H :=
  apply digit_cases in H; simpl in H;
  repeat (destruct H as [<- | H]); [.. | contradiction].

Lemma digit_facts (c : ascii) :
  is_digit c = true ->
  Ascii.eqb c " " = false /\ Ascii.eqb c "-" = false /\ Ascii.eqb c ":" = false
  /\ is_ws c = false /\ 0 <= digit_val c <= 9.
Proof. intros H; digit_case H; vm_compute; repeat split; discriminate. Qed.

Lemma num2_bounds (a b : ascii) :
  is_digit a = true -> is_digit b = true -> 0 <= num2 a b <= 99.
Proof.
  intros Ha Hb. apply digit_facts in Ha, Hb. unfold num2. lia.
Qed.

Lemma parseInt_two_digits (a b : ascii) :
  is_digit a = true -> is_digit b = true ->
  parseInt (String a (String b EmptyString)) = Some (num2 a b).
Proof. intros Ha Hb; digit_case Ha; digit_case Hb; reflexivity. Qed.

Lemma pad2_two_digits (a b : ascii) :
  is_digit a = true -> is_digit b = true ->
  pad2 (Z_to_string (num2 a b)) = String a (String b EmptyString).
Proof. intros Ha Hb; digit_case Ha; digit_case Hb; reflexivity. Qed.

Lemma year_two_digits (a b : ascii) :
  is_digit a = true -> is_digit b = true ->
  Z_to_string (if num2 a b <? 50 then num2 a b + 2000 else num2 a b + 1900)
  = (if num2 a b <? 50 then "20" else "19") ++ String a (String b EmptyString).
Proof. intros Ha Hb; digit_case Ha; digit_case Hb; reflexivity. Qed.

Lemma split_nonnil (sep : ascii) (s : string) : split sep s <> [].
Proof.
  destruct s as [|c s]; simpl; [discriminate|].
  destruct (Ascii.eqb c sep); [discriminate|].
  destruct (split sep s); discriminate.
Qed.

Lemma join_split (sep : ascii) (s : string) : join sep (split sep s) = s.
Proof.
  induction s as [|c s IH]; [reflexivity|].
  simpl. destruct (Ascii.eqb c sep) eqn:E.
  - apply Ascii.eqb_eq in E. subst c.
    destruct (split sep s) as [|h t] eqn:Hs; [now apply split_nonnil in Hs|].
    simpl. rewrite <- IH. reflexivity.
  - destruct (split sep s) as [|h t] eqn:Hs; [now apply split_nonnil in Hs|].
    destruct t as [|h' t]; simpl in *; rewrite <- IH; reflexivity.
Qed.

Lemma drop_while_snoc (p : ascii -> bool) (l : list ascii) (c : ascii) :
  p c = false -> drop_while p (l ++ [c]) <> [].
Proof.
  intros Hc. induction l as [|x l IH]; simpl.
  - rewrite Hc. discriminate.
  - destruct (p x); [exact IH | discriminate].
Qed.

Lemma trim_nonempty (c : ascii) (s : string) :
  is_ws c = false -> String.eqb (trim (String c s)) "" = false.
Proof.
  intros Hc. unfold trim. simpl. rewrite Hc. simpl.
  destruct (drop_while is_ws (rev (list_ascii_of_string s) ++ [c])) as [|x l] eqn:E.
  - exfalso. exact (drop_while_snoc _ _ _ Hc E).
  - simpl. destruct ((rev l ++ [x])%list) as [|y l'] eqn:E'.
    + symmetry in E'. now apply app_cons_not_nil in E'.
    + reflexivity.
Qed.

Lemma date_re_shape (s : string) :
  date_re s = true ->
  exists y1 y2 m1 m2 d1 d2,
    forallb is_digit [y1; y2; m1; m2; d1; d2] = true /\
    s = String y1 (String y2 (String "-" (String m1 (String m2 (String "-"
          (String d1 (String d2 EmptyString))))))).
Proof.
  destruct s as [|y1 [|y2 [|c [|m1 [|m2 [|f [|d1 [|d2 [|z s]]]]]]]]];
    simpl; try discriminate.
  intros H. repeat rewrite andb_true_iff in H.
  destruct H as [[[[[[[H1 H2] Hc] H3] H4] Hf] H5] H6].
  apply Ascii.eqb_eq in Hc, Hf. subst c f.
  exists y1, y2, m1, m2, d1, d2. simpl.
  rewrite H1, H2, H3, H4, H5, H6. auto.
Qed.

Lemma time_re_shape (s : string) :
  time_re s = true ->
  exists h1 h2 i1 i2 e1 e2,
    forallb is_digit [h1; h2; i1; i2; e1; e2] = true /\
    s = String h1 (String h2 (String ":" (String i1 (String i2 (String ":"
          (String e1 (String e2 EmptyString))))))).
Proof.
  destruct s as [|y1 [|y2 [|c [|m1 [|m2 [|f [|d1 [|d2 [|z s]]]]]]]]];
    simpl; try discriminate.
  intros H. repeat rewrite andb_true_iff in H.
  destruct H as [[[[[[[H1 H2] Hc] H3] H4] Hf] H5] H6].
  apply Ascii.eqb_eq in Hc, Hf. subst c f.
  exists y1, y2, m1, m2, d1, d2. simpl.
  rewrite H1, H2, H3, H4, H5, H6. auto.
Qed.

Ltac digits_from H :=
  simpl in H; repeat rewrite andb_true_iff in H;
  repeat match type of H with
         | _ /\ _ => let H' := fresh "Hd" in destruct H as [H' H]
         end.

Lemma split_date_part (y1 y2 m1 m2 d1 d2 : ascii) :
  forallb is_digit [y1; y2; m1; m2; d1; d2] = true ->
  split "-" (String y1 (String y2 (String "-" (String m1 (String m2 (String "-"
    (String d1 (String d2 EmptyString)))))))) =
  [String y1 (String y2 EmptyString); String m1 (String m2 EmptyString);
   String d1 (String d2 EmptyString)].
Proof.
  intros H. digits_from H.
  destruct (digit_facts _ Hd) as (_&E1&_).
  destruct (digit_facts _ Hd0) as (_&E2&_).
  destruct (digit_facts _ Hd1) as (_&E3&_).
  destruct (digit_facts _ Hd2) as (_&E4&_).
  destruct (digit_facts _ Hd3) as (_&E5&_).
  destruct (digit_facts _ Hd4) as (_&E6&_).
  simpl. rewrite E1, E2, E3, E4, E5, E6. reflexivity.
Qed.

Ltac digit_facts_all :=
  repeat match goal with
  | Hd : is_digit ?c = true |- _ =>
      lazymatch goal with
      | _ : Ascii.eqb c " " = false |- _ => fail
      | _ => destruct (digit_facts c Hd) as (?&?&?&?&?)
      end
  end.

Ltac eqb_rewrite :=
  repeat match goal with
  | E : Ascii.eqb ?c ?s = false |- context [Ascii.eqb ?c ?s] => rewrite E
  end.

Lemma split_tracker_text (y1 y2 m1 m2 d1 d2 : ascii) (t : string) :
  forallb is_digit [y1; y2; m1; m2; d1; d2] = true -> time_re t = true ->
  split " " (tracker_text y1 y2 m1 m2 d1 d2 t) =
  [String y1 (String y2 (String "-" (String m1 (String m2 (String "-"
     (String d1 (String d2 EmptyString))))))); t].
Proof.
  intros Hdig Ht. digits_from Hdig.
  destruct (time_re_shape t Ht) as (h1&h2&i1&i2&e1&e2&Htd&->).
  digits_from Htd. digit_facts_all.
  unfold tracker_text. simpl. eqb_rewrite. reflexivity.
Qed.

Lemma tracker_text_not_blank (y1 y2 m1 m2 d1 d2 : ascii) (t : string) :
  is_digit y1 = true ->
  String.eqb (tracker_text y1 y2 m1 m2 d1 d2 t) "" ||
  String.eqb (trim (tracker_text y1 y2 m1 m2 d1 d2 t)) "" = false.
Proof.
  intros H. destruct (digit_facts _ H) as (_&_&_&Hw&_).
  unfold tracker_text. rewrite trim_nonempty by exact Hw. reflexivity.
Qed.

(** On an input of the accepted shape, the normalizer reduces to its month and
    day range test followed by the [Date] test of the canonical string. *)
Lemma normalizer_on_shape (date_parse : string -> option Z)
    (y1 y2 m1 m2 d1 d2 : ascii) (t : string) :
  forallb is_digit [y1; y2; m1; m2; d1; d2] = true -> time_re t = true ->
  parseTimeTrackerDate date_parse (Some (tracker_text y1 y2 m1 m2 d1 d2 t)) =
  if (num2 m1 m2 <? 1) || (12 <? num2 m1 m2) || (num2 d1 d2 <? 1) || (31 <? num2 d1 d2)
  then None
  else match date_parse (canonical_of y1 y2 m1 m2 d1 d2 t) with
       | None => None
       | Some _ => Some (canonical_of y1 y2 m1 m2 d1 d2 t)
       end.
Proof.
  intros Hdig Ht.
  pose proof Hdig as Hdig'. digits_from Hdig'.
  destruct (time_re_shape t Ht) as (h1&h2&i1&i2&e1&e2&Htd&->).
  unfold parseTimeTrackerDate.
  rewrite tracker_text_not_blank by assumption.
  rewrite split_tracker_text by assumption.
  assert (Hdr : date_re (String y1 (String y2 (String "-" (String m1 (String m2
     (String "-" (String d1 (String d2 EmptyString)))))))) = true)
    by (simpl; repeat (rewrite andb_true_iff; split); assumption || reflexivity).
  rewrite Hdr, Ht. cbn [negb orb].
  rewrite (split_date_part _ _ _ _ _ _ Hdig).
  rewrite !parseInt_two_digits by assumption.
  destruct ((num2 m1 m2 <? 1) || (12 <? num2 m1 m2) || (num2 d1 d2 <? 1) || (31 <? num2 d1 d2));
    [reflexivity|].
  pose proof (num2_bounds y1 y2 ltac:(assumption) ltac:(assumption)) as Hb.
  replace ((if num2 y1 y2 <? 50 then num2 y1 y2 + 2000 else num2 y1 y2 + 1900) <? 1900)
    with false by (destruct (Z.ltb_spec (num2 y1 y2) 50); symmetry; apply Z.ltb_ge; lia).
  replace (2100 <? (if num2 y1 y2 <? 50 then num2 y1 y2 + 2000 else num2 y1 y2 + 1900))
    with false by (destruct (Z.ltb_spec (num2 y1 y2) 50); symmetry; apply Z.ltb_ge; lia).
  cbn [orb].
  rewrite year_two_digits, !pad2_two_digits by assumption.
  unfold canonical_of.
  destruct (num2 y1 y2 <? 50); reflexivity.
Qed.

Lemma range_test_false (m d : Z) :
  (m <? 1) || (12 <? m) || (d <? 1) || (31 <? d) = false <->
  (1 <= m <= 12 /\ 1 <= d <= 31).
Proof.
  rewrite !orb_false_iff, !Z.ltb_ge. lia.
Qed.

(** What a [Some] result of the normalizer is made of. *)
Lemma parseTimeTrackerDate_some_inv (date_parse : string -> option Z) (s r : string) :
  parseTimeTrackerDate date_parse (Some s) = Some r ->
  exists y1 y2 m1 m2 d1 d2 t,
    forallb is_digit [y1; y2; m1; m2; d1; d2] = true /\ time_re t = true /\
    s = tracker_text y1 y2 m1 m2 d1 d2 t /\
    1 <= num2 m1 m2 <= 12 /\ 1 <= num2 d1 d2 <= 31 /\
    r = canonical_of y1 y2 m1 m2 d1 d2 t /\ date_parse r <> None.
Proof.
  intros H. pose proof H as H0. unfold parseTimeTrackerDate in H0.
  destruct (String.eqb s "" || String.eqb (trim s) ""); [discriminate|].
  destruct (split " " s) as [|dp [|t [|x l]]] eqn:Hsp; try discriminate.
  destruct (date_re dp) eqn:Hd; [|discriminate].
  destruct (time_re t) eqn:Ht; [|discriminate].
  apply date_re_shape in Hd as (y1&y2&m1&m2&d1&d2&Hdig&->).
  assert (Hs : s = tracker_text y1 y2 m1 m2 d1 d2 t)
    by (rewrite <- (join_split " " s), Hsp; reflexivity).
  subst s. rewrite normalizer_on_shape in H by assumption.
  destruct ((num2 m1 m2 <? 1) || (12 <? num2 m1 m2) || (num2 d1 d2 <? 1)
            || (31 <? num2 d1 d2)) eqn:Em; [discriminate|].
  apply range_test_false in Em as [Hm Hdd].
  destruct (date_parse (canonical_of y1 y2 m1 m2 d1 d2 t)) eqn:Ep; [|discriminate].
  injection H as <-.
  exists y1, y2, m1, m2, d1, d2, t. repeat split; auto; lia || congruence.
Qed.

(* ================================================================== *)
(** * C1: the Date/Time Normalizer *)

(** C1 (counterexample).  The claim's own example: on ["15-06-23 09:30:00"]
    the normalizer does not return ["2023-06-15T09:30:00"]; it reads the
    first field as the year and returns ["2015-06-23T09:30:00"]. *)
Lemma parseTimeTrackerDate_example_yymmdd :
  parseTimeTrackerDate iso_date_parse (Some "15-06-23 09:30:00")
    = Some "2015-06-23T09:30:00" /\
  parseTimeTrackerDate iso_date_parse (Some "15-06-23 09:30:00")
    <> Some "2023-06-15T09:30:00".
Proof. split; vm_compute; [reflexivity | discriminate]. Qed.

(** C1 (amended).  For every [Date] parser and every input string, the
    normalizer (a total function: it has no failure other than [None])
    returns [Some r] exactly when the input is [YY-MM-DD HH:MM:SS] (two
    digits each, first field the year, one space, a time token matching
    [\d{2}:\d{2}:\d{2}]), the month is in [1,12], the day in [1,31], and
    [r], the string [YYYY-MM-DDTHH:MM:SS] whose century is 20 for a
    two-digit year below 50 and 19 otherwise, is accepted by [new Date];
    every other input, blank ones included, gives [None]. *)
Theorem parseTimeTrackerDate_spec (date_parse : string -> option Z) (s r : string) :
  parseTimeTrackerDate date_parse (Some s) = Some r <->
  exists y1 y2 m1 m2 d1 d2 t,
    forallb is_digit [y1; y2; m1; m2; d1; d2] = true /\ time_re t = true /\
    s = tracker_text y1 y2 m1 m2 d1 d2 t /\
    1 <= num2 m1 m2 <= 12 /\ 1 <= num2 d1 d2 <= 31 /\
    r = canonical_of y1 y2 m1 m2 d1 d2 t /\ date_parse r <> None.
Proof.
  split.
  - intros H. pose proof H as H0. unfold parseTimeTrackerDate in H0.
    destruct (String.eqb s "" || String.eqb (trim s) ""); [discriminate|].
    destruct (split " " s) as [|dp [|t [|x l]]] eqn:Hsp; try discriminate.
    destruct (date_re dp) eqn:Hd; [|discriminate].
    destruct (time_re t) eqn:Ht; [|discriminate].
    apply date_re_shape in Hd as (y1&y2&m1&m2&d1&d2&Hdig&->).
    assert (Hs : s = tracker_text y1 y2 m1 m2 d1 d2 t)
      by (rewrite <- (join_split " " s), Hsp; reflexivity).
    subst s. rewrite normalizer_on_shape in H by assumption.
    destruct ((num2 m1 m2 <? 1) || (12 <? num2 m1 m2) || (num2 d1 d2 <? 1)
              || (31 <? num2 d1 d2)) eqn:Em; [discriminate|].
    apply range_test_false in Em as [Hm Hdd].
    destruct (date_parse (canonical_of y1 y2 m1 m2 d1 d2 t)) eqn:Ep; [|discriminate].
    injection H as <-.
    exists y1, y2, m1, m2, d1, d2, t. repeat split; auto; lia || congruence.
  - intros (y1&y2&m1&m2&d1&d2&t&Hdig&Ht&->&Hm&Hd&->&Hp).
    rewrite normalizer_on_shape by assumption.
    replace ((num2 m1 m2 <? 1) || (12 <? num2 m1 m2) || (num2 d1 d2 <? 1)
             || (31 <? num2 d1 d2)) with false
      by (symmetry; apply range_test_false; auto).
    destruct (date_parse (canonical_of y1 y2 m1 m2 d1 d2 t)); congruence.
Qed.

(* ================================================================== *)
(** * Lemmas about entry trees and durations *)

(** Induction on entry trees, with the hypothesis on every sub-entry. *)
Fixpoint RawEntry_tree_ind (P : RawEntry -> Prop)
    (H : forall n s t subs, Forall P subs -> P (mkRaw n s t subs))
    (e : RawEntry) : P e :=
  match e with
  | mkRaw n s t subs =>
      H n s t subs
        ((fix go (l : list RawEntry) : Forall P l :=
            match l with
            | [] => Forall_nil P
            | x :: r => Forall_cons x (RawEntry_tree_ind P H x) (go r)
            end) subs)
  end.

Lemma processEntries_cons (date_parse : string -> option Z) (e : RawEntry)
    (es : list RawEntry) (d : Z) :
  processEntries date_parse (e :: es) d =
  ((processEntry date_parse e d
     :: processEntries date_parse (raw_subEntries e) (d + 1))
  ++ processEntries date_parse es d)%list.
Proof. destruct e as [n s t [|x l]]; reflexivity. Qed.

Lemma length_flat_map {A B : Type} (f : A -> list B) (l : list A) :
  List.length (flat_map f l) = list_sum (map (fun x => List.length (f x)) l).
Proof.
  induction l as [|x l IH]; [reflexivity|].
  simpl. rewrite List.length_app, IH. reflexivity.
Qed.

Lemma processTree_length (date_parse : string -> option Z) (e : RawEntry) :
  forall d, List.length (processTree date_parse e d) = count_tree e.
Proof.
  induction e as [n s t subs IH] using RawEntry_tree_ind. intros d.
  simpl. f_equal.
  assert (Hs : List.length (flat_map (fun e => processTree date_parse e (d + 1)) subs)
               = list_sum (map count_tree subs)).
  { rewrite length_flat_map. f_equal.
    induction IH as [|x l Hx _ IHl]; [reflexivity|].
    simpl. rewrite Hx, IHl. reflexivity. }
  destruct subs; [reflexivity | exact Hs].
Qed.

Lemma clamp_bounds (x : Q) :
  (0 <= Qmax 0 (Qmin x (inject_Z (24 * 365))) <= inject_Z (24 * 365))%Q.
Proof.
  split.
  - apply Q.le_max_l.
  - apply Q.max_lub; [discriminate|]. apply Q.le_min_r.
Qed.

Lemma calculateEntryDuration_bounds (date_parse : string -> option Z) (e : TimeEntry) :
  (0 <= calculateEntryDuration date_parse e <= inject_Z (24 * 365))%Q.
Proof.
  unfold calculateEntryDuration.
  destruct (startTime e) as [s|], (endTime e) as [t|];
    try (split; discriminate).
  destruct (String.eqb s "" || String.eqb t ""); [split; discriminate|].
  destruct (date_parse s), (date_parse t); try (split; discriminate).
  apply clamp_bounds.
Qed.

Lemma fold_left_Qplus (f : TimeEntry -> Q) (l : list TimeEntry) (acc : Q) :
  (fold_left (fun total entry => total + f entry) l acc
   == acc + fold_right (fun entry total => f entry + total) 0 l)%Q.
Proof.
  revert acc. induction l as [|x l IH]; intros acc; simpl.
  - ring.
  - rewrite IH. ring.
Qed.

(* ================================================================== *)
(** * C3: per-entry durations and total hours *)

(** C3.  With a [Date] parser that rejects the empty string (as
    [new Date("")] does): an entry's duration is 0 when an endpoint is
    [null] or fails to parse; otherwise it is the difference in hours
    clamped to [0, 8760]; it always lies in [0, 8760]; and the total hours
    of an entry list is the sum of the entries' durations. *)
Theorem calculateEntryDuration_spec (date_parse : string -> option Z)
    (Hempty : date_parse "" = None) :
  (forall e, startTime e = None \/ endTime e = None ->
     calculateEntryDuration date_parse e = 0%Q) /\
  (forall e s, (startTime e = Some s \/ endTime e = Some s) -> date_parse s = None ->
     calculateEntryDuration date_parse e = 0%Q) /\
  (forall e s t st en, startTime e = Some s -> endTime e = Some t ->
     date_parse s = Some st -> date_parse t = Some en ->
     calculateEntryDuration date_parse e
     = Qmax 0 (Qmin (inject_Z (en - st) / inject_Z 3600000) (inject_Z 8760))) /\
  (forall e, 0 <= calculateEntryDuration date_parse e <= inject_Z 8760)%Q /\
  (forall entries, calculateTotalHours date_parse entries
     == fold_right (fun e total => calculateEntryDuration date_parse e + total) 0 entries)%Q.
Proof.
  split; [|split; [|split; [|split]]].
  - intros e H. unfold calculateEntryDuration.
    destruct H as [-> | ->]; [reflexivity|]. destruct (startTime e); reflexivity.
  - intros e s Hs Hp. unfold calculateEntryDuration.
    destruct (startTime e) as [a|] eqn:Ea, (endTime e) as [b|] eqn:Eb; try reflexivity.
    destruct (String.eqb a "" || String.eqb b ""); [reflexivity|].
    destruct Hs as [Hs | Hs]; injection Hs as <-; rewrite Hp;
      [reflexivity | destruct (date_parse a); reflexivity].
  - intros e s t st en Hs Ht Hps Hpt. unfold calculateEntryDuration.
    rewrite Hs, Ht.
    destruct (String.eqb_spec s ""); [subst; congruence|].
    destruct (String.eqb_spec t ""); [subst; congruence|].
    cbn [orb]. rewrite Hps, Hpt. reflexivity.
  - intros e. apply calculateEntryDuration_bounds.
  - intros entries. unfold calculateTotalHours. rewrite fold_left_Qplus. ring.
Qed.

(** C3 witness: the theorem at the ISO parser, on a 2.5 hour entry. *)
Lemma calculateEntryDuration_spec_witness :
  iso_date_parse "" = None /\
  calculateEntryDuration iso_date_parse
    (mkEntry "Task" (Some "2023-06-15T09:00:00") (Some "2023-06-15T11:30:00") None)
  = Qmax 0 (Qmin (inject_Z (1686828600000 - 1686819600000) / inject_Z 3600000)
                 (inject_Z 8760)).
Proof.
  split; [reflexivity|].
  destruct (calculateEntryDuration_spec iso_date_parse eq_refl) as (_&_&H&_).
  apply (H _ "2023-06-15T09:00:00" "2023-06-15T11:30:00"); vm_compute; reflexivity.
Defined.

(* ================================================================== *)
(** * C4: the Entry Tree Processor flattens in pre-order *)

(** C4.  [processEntries] of the empty list is empty; on [e :: es] at depth
    [d] it yields [e] annotated with level [d], then the flattening of
    [e]'s sub-entries at [d + 1], then the flattening of [es] at [d]; it
    yields exactly one output per input entry (sub-entries included); and
    [[{A, subEntries: [{B}]}]] from depth 0 yields [[(A, 0); (B, 1)]]. *)
Theorem processEntries_preorder (date_parse : string -> option Z) :
  (forall d, processEntries date_parse [] d = []) /\
  (forall e es d,
     processEntries date_parse (e :: es) d =
     ((processEntry date_parse e d
        :: processEntries date_parse (raw_subEntries e) (d + 1))
      ++ processEntries date_parse es d)%list
     /\ p_name (processEntry date_parse e d) = raw_name e
     /\ p_level (processEntry date_parse e d) = d) /\
  (forall es d, List.length (processEntries date_parse es d) = count_entries es) /\
  map (fun p => (p_name p, p_level p))
    (processEntries date_parse [mkRaw "A" None None [mkRaw "B" None None []]] 0)
  = [("A", 0); ("B", 1)].
Proof.
  split; [|split; [|split]].
  - reflexivity.
  - intros e es d. split; [apply processEntries_cons | split; reflexivity].
  - intros es d. unfold processEntries, count_entries.
    rewrite length_flat_map. f_equal. apply map_ext. intros e.
    apply processTree_length.
  - reflexivity.
Qed.

(* ================================================================== *)
(** * C5: canonical strings re-parse *)

Lemma normalizer_output_parses (date_parse : string -> option Z) (s r : string) :
  parseTimeTrackerDate date_parse (Some s) = Some r ->
  date_parse r <> None /\ String.eqb r "" = false.
Proof.
  intros H. apply parseTimeTrackerDate_some_inv in H
    as (y1&y2&m1&m2&d1&d2&t&_&_&_&_&_&->&Hp).
  split; [exact Hp|]. unfold canonical_of. destruct (num2 y1 y2 <? 50); reflexivity.
Qed.

(** C5.  Whatever the [Date] parser, a canonical string the normalizer
    returns parses again, so an entry whose two endpoints are normalizer
    outputs gets its duration from the clamped difference, never from the
    invalid-date branch. *)
Theorem normalizer_roundtrip (date_parse : string -> option Z) (s1 s2 r1 r2 : string)
    (n : string) (lvl : option Z)
    (H1 : parseTimeTrackerDate date_parse (Some s1) = Some r1)
    (H2 : parseTimeTrackerDate date_parse (Some s2) = Some r2) :
  exists st en, date_parse r1 = Some st /\ date_parse r2 = Some en /\
    calculateEntryDuration date_parse (mkEntry n (Some r1) (Some r2) lvl)
    = Qmax 0 (Qmin (inject_Z (en - st) / inject_Z 3600000) (inject_Z 8760)).
Proof.
  apply normalizer_output_parses in H1 as [P1 E1].
  apply normalizer_output_parses in H2 as [P2 E2].
  destruct (date_parse r1) as [st|] eqn:Q1; [|congruence].
  destruct (date_parse r2) as [en|] eqn:Q2; [|congruence].
  exists st, en. split; [reflexivity|]. split; [reflexivity|].
  unfold calculateEntryDuration. cbn [startTime endTime].
  rewrite E1, E2. cbn [orb]. rewrite Q1, Q2. reflexivity.
Qed.

(** C5 witness: two tracker timestamps, normalized then measured. *)
Lemma normalizer_roundtrip_witness :
  parseTimeTrackerDate iso_date_parse (Some "23-06-15 09:00:00") = Some "2023-06-15T09:00:00" /\
  parseTimeTrackerDate iso_date_parse (Some "23-06-15 11:30:00") = Some "2023-06-15T11:30:00" /\
  exists st en, iso_date_parse "2023-06-15T09:00:00" = Some st /\
    iso_date_parse "2023-06-15T11:30:00" = Some en /\
    calculateEntryDuration iso_date_parse
      (mkEntry "Task" (Some "2023-06-15T09:00:00") (Some "2023-06-15T11:30:00") None)
    = Qmax 0 (Qmin (inject_Z (en - st) / inject_Z 3600000) (inject_Z 8760)).
Proof.
  split; [vm_compute; reflexivity|]. split; [vm_compute; reflexivity|].
  apply (normalizer_roundtrip iso_date_parse "23-06-15 09:00:00" "23-06-15 11:30:00");
    vm_compute; reflexivity.
Defined.

(* ================================================================== *)
(** * C6: the extractor's row window *)

Definition has4 (cells : Row) : bool := (4 <=? List.length cells)%nat.

Lemma extract_loop (date_parse : string -> option Z) (rows : list Row) :
  forall n k acc, (k + n <= List.length rows)%nat ->
  fold_left (extract_step date_parse rows) (seq k n) acc
  = (acc ++ map (row_entry date_parse) (filter has4 (firstn n (skipn k rows))))%list.
Proof.
  induction n as [|n IH]; intros k acc Hlen.
  - simpl. rewrite app_nil_r. reflexivity.
  - destruct (nth_error rows k) as [r|] eqn:Hk;
      [|apply nth_error_None in Hk; lia].
    assert (Hsk : skipn k rows = r :: skipn (S k) rows).
    { clear -Hk. revert rows Hk. induction k as [|k IHk]; intros [|x rows] Hk;
        simpl in *; try discriminate.
      - injection Hk as ->. reflexivity.
      - apply IHk. exact Hk. }
    change (seq k (S n)) with (k :: seq (S k) n). cbn [fold_left].
    rewrite IH by lia. rewrite Hsk.
    change (firstn (S n) (r :: skipn (S k) rows)) with (r :: firstn n (skipn (S k) rows)).
    cbn [filter]. unfold extract_step. rewrite Hk. unfold has4.
    destruct (4 <=? List.length r)%nat; cbn [map]; rewrite <- ?app_assoc; reflexivity.
Qed.

(** C6.  The extractor skips row 0 and scans rows 1 .. min(count, 1000)
    only: its entries are exactly one per row with at least four cells
    among the first 1000 data rows, in order (rows with fewer cells give
    none, and the model has no error path); there are at most 1000 of them;
    and rows after index 1000 have no effect. *)
Theorem extract_entries_window (date_parse : string -> option Z) (rows : list Row) :
  extract_entries date_parse rows
    = map (row_entry date_parse) (filter has4 (firstn 1000 (skipn 1 rows))) /\
  (List.length (extract_entries date_parse rows) <= 1000)%nat /\
  (forall extra, (1001 <= List.length rows)%nat ->
     extract_entries date_parse (rows ++ extra)%list = extract_entries date_parse rows).
Proof.
  assert (Hwin : forall rows, extract_entries date_parse rows
            = map (row_entry date_parse) (filter has4 (firstn 1000 (skipn 1 rows)))).
  { intros rs. destruct rs as [|r0 rs'] eqn:Ers; [reflexivity|]. rewrite <- Ers.
    unfold extract_entries.
    rewrite extract_loop by (subst rs; simpl; lia). rewrite app_nil_l.
    f_equal. f_equal.
    destruct (Nat.le_gt_cases (List.length rs) 1001) as [Hle|Hgt].
    - rewrite Nat.min_l by lia.
      rewrite !firstn_all2; [reflexivity| |]; rewrite length_skipn; lia.
    - rewrite Nat.min_r by lia. reflexivity. }
  split; [apply Hwin|split].
  - rewrite Hwin, length_map.
    etransitivity; [apply filter_length_le|]. rewrite length_firstn. lia.
  - intros extra Hlen. rewrite !Hwin. f_equal. f_equal.
    rewrite skipn_app, firstn_app.
    replace (1 - List.length rows)%nat with O by lia. rewrite skipn_O.
    rewrite length_skipn.
    replace (1000 - (List.length rows - 1))%nat with O by lia.
    rewrite firstn_O, app_nil_r. reflexivity.
Qed.

(* ================================================================== *)
(** * C2: flat-rate mode selection *)

(** C2 (code defect).  The options modal keeps any parsed amount that is not
    [NaN] and is [> 0]; [parseFloat("Infinity")] is [Infinity], so typing
    ["Infinity"] stores [flatRateAmount = Infinity].  The engine then runs
    in flat-rate mode (it tests only [!== undefined]): the rate and amount
    cells are dashes and the summary prints [Infinity] as the project rate
    and the total, where the absent option would give hourly billing
    (2.5 h at 100, total 250). *)
Theorem flat_rate_accepts_infinity :
  let options := modal_onChange JPosInf {| flatRateAmount := None |} in
  let entries := [mkEntry "Task" (Some "2023-06-15T09:00:00")
                          (Some "2023-06-15T11:30:00") (Some 0)] in
  flatRateAmount options = Some JPosInf /\ js_isFinite JPosInf = false /\
  isFlatRate options = true /\
  subtotal iso_date_parse DEFAULT_SETTINGS entries options = JPosInf /\
  (exists ops,
     addPDFContent iso_date_parse DEFAULT_SETTINGS entries options "N" "D" = Ok ops /\
     In (TextAt (CFixed2 JPosInf) 190 (AfterTable 7) true) ops /\
     In (TextAt (CFixed2 JPosInf) 190 (AfterTable 20) true) ops /\
     tableData iso_date_parse DEFAULT_SETTINGS (isFlatRate options) entries
     = Ok [[CStr "Task"; CTime 1686819600000; CTime 1686828600000;
            CFixed2 (JFin (Qmax 0 (Qmin (inject_Z 9000000 / inject_Z 3600000)
                                        (inject_Z (24 * 365)))));
            CStr "-"; CStr "-"]]) /\
  isFlatRate {| flatRateAmount := None |} = false /\
  subtotal iso_date_parse DEFAULT_SETTINGS entries {| flatRateAmount := None |}
  = JFin ((0 + Qmax 0 (Qmin (inject_Z 9000000 / inject_Z 3600000) (inject_Z (24 * 365)))) * 100).
Proof.
  intros options entries.
  split; [reflexivity|]. split; [reflexivity|]. split; [reflexivity|].
  split; [reflexivity|]. split; [|split; reflexivity].
  eexists. split; [reflexivity|].
  split; [vm_compute; tauto|]. split; [vm_compute; tauto|]. reflexivity.
Qed.

(* ================================================================== *)
(** * C7: invoice numbers *)

(** C7 (counterexample).  [Math.random()] may return [0.99995], for which
    [Math.floor(0.99995 * 10000)] is [9999]: the suffix 9999 is produced. *)
Lemma generateInvoiceNumber_9999 :
  (0 <= 19999 # 20000 < 1)%Q /\
  generateInvoiceNumber (mkNow 2026 9 16) (19999 # 20000) = "2026-10-16-9999".
Proof. split; [unfold Qle, Qlt; simpl; lia | reflexivity]. Qed.

(** C7 (amended).  For [Math.random()] in [[0, 1)], the invoice number is the
    year, the zero-padded month and day, and an integer [n] in [[0, 9999]]
    (9999 included) written in decimal without padding. *)
Theorem generateInvoiceNumber_form (now : Now) (r : Q) (Hr : (0 <= r < 1)%Q) :
  exists n, 0 <= n <= 9999 /\
    generateInvoiceNumber now r =
    Z_to_string (now_year now) ++ "-" ++ pad2 (Z_to_string (now_month now + 1)) ++ "-"
    ++ pad2 (Z_to_string (now_day now)) ++ "-" ++ Z_to_string n.
Proof.
  exists (Qfloor (r * inject_Z 10000)). split; [|reflexivity].
  destruct Hr as [H0 H1].
  assert (Hx0 : (0 <= r * inject_Z 10000)%Q).
  { apply Qmult_le_0_compat; [exact H0 | discriminate]. }
  assert (Hx1 : (r * inject_Z 10000 < inject_Z 10000)%Q).
  { rewrite <- (Qmult_1_l (inject_Z 10000)) at 2.
    apply Qmult_lt_r; [reflexivity | exact H1]. }
  pose proof (Qfloor_le (r * inject_Z 10000)) as Hle.
  pose proof (Qlt_floor (r * inject_Z 10000)) as Hlt.
  split.
  - assert (H : (inject_Z 0 < inject_Z (Qfloor (r * inject_Z 10000) + 1))%Q).
    { apply Qle_lt_trans with (r * inject_Z 10000)%Q; assumption. }
    rewrite <- Zlt_Qlt in H. lia.
  - assert (H : (inject_Z (Qfloor (r * inject_Z 10000)) < inject_Z 10000)%Q).
    { apply Qle_lt_trans with (r * inject_Z 10000)%Q; assumption. }
    rewrite <- Zlt_Qlt in H. lia.
Qed.

(** C7 witness. *)
Lemma generateInvoiceNumber_form_witness :
  (0 <= 19999 # 20000 < 1)%Q /\
  exists n, 0 <= n <= 9999 /\
    generateInvoiceNumber (mkNow 2026 9 16) (19999 # 20000) =
    "2026" ++ "-" ++ "10" ++ "-" ++ "16" ++ "-" ++ Z_to_string n.
Proof.
  split; [unfold Qle, Qlt; simpl; lia|].
  exact (generateInvoiceNumber_form (mkNow 2026 9 16) (19999 # 20000)
           (conj (Qle_bool_imp_le 0 (19999 # 20000) eq_refl) eq_refl)).
Defined.

(* ================================================================== *)
(** * C8: file-name sanitization *)

(** C8 (code defect).  Hyphens are stripped from the ends before the
    50-character cut, so the cut can leave a trailing hyphen: 49 letters,
    a space and a letter give 49 letters and a hyphen.  The spec's own
    example is cleaned as promised. *)
Theorem sanitizeFilename_trailing_hyphen :
  sanitizeFilename (repeat_str "a" 49 ++ " b") = repeat_str "a" 49 ++ "-" /\
  sanitizeFilename "My / Co: LLC***" = "My-Co-LLC".
Proof. split; vm_compute; reflexivity. Qed.

(* ================================================================== *)
(** * C9 and C10: the generation pipeline *)

Lemma str_length_app (a b : string) :
  String.length (a ++ b) = (String.length a + String.length b)%nat.
Proof. induction a as [|c a IH]; simpl; [reflexivity | rewrite IH; reflexivity]. Qed.

Section GeneratorFacts.

Variable date_parse : string -> option Z.
Variable jspdf_output : list DocOp -> Result Buffer.
Variable moment_format : Now -> string -> string.
Variable normalizePath : string -> string.
Variable now : Now.
Variable invoiceDate : string.

(** C9.  When laying out the document fails with message [m] (in
    [addPDFContent] or in jsPDF), [generateInvoice] fails with the one error
    ["Failed to generate invoice: PDF generation failed: " ++ m], which
    carries [m], and the vault is left as it was: no document is saved. *)
Theorem generateInvoice_layout_error (settings : InvoiceSettings)
    (entries : list TimeEntry) (options : InvoiceOptions) (st : GenState) (m : string)
    (Hfail : layoutPDF date_parse jspdf_output invoiceDate settings entries options
               (generateInvoiceNumber now (rng st (draws st))) = Err m) :
  exists st',
    generateInvoice date_parse jspdf_output moment_format normalizePath now invoiceDate
      settings entries options st
    = (Err ("Failed to generate invoice: PDF generation failed: " ++ m), st') /\
    vault st' = vault st.
Proof.
  unfold generateInvoice, generatePDF, generateInvoiceNumberM, catch, bind, ret,
    throw, random.
  cbn [vault rng draws]. rewrite Hfail.
  eexists. split; reflexivity.
Qed.

(** C10.  [generateInvoice] draws [Math.random()] twice: the number printed
    in the header comes from the first draw and the one in the file path
    from the second; and two draws can give different numbers. *)
Theorem generateInvoice_two_draws (settings : InvoiceSettings)
    (entries : list TimeEntry) (options : InvoiceOptions) (st : GenState)
    (ops : list DocOp) (buf : Buffer)
    (Hops : addPDFContent date_parse settings entries options
              (generateInvoiceNumber now (rng st (draws st))) invoiceDate = Ok ops)
    (Hbuf : jspdf_output ops = Ok buf) :
  In (TextAt (CStr ("Invoice #: " ++ escapeText (generateInvoiceNumber now (rng st (draws st)))))
             200 (Abs 45) true) ops /\
  generateInvoice date_parse jspdf_output moment_format normalizePath now invoiceDate
    settings entries options st
  = catch (persist normalizePath
             (filePathFor moment_format normalizePath now settings
                (generateInvoiceNumber now (rng st (S (draws st))))) buf)
          (fun m => throw ("Failed to generate invoice: " ++ m))
          {| vault := vault st; rng := rng st; draws := S (S (draws st)) |} /\
  (exists r1 r2, (0 <= r1 < 1)%Q /\ (0 <= r2 < 1)%Q /\
     generateInvoiceNumber now r1 <> generateInvoiceNumber now r2).
Proof.
  split; [|split].
  - unfold addPDFContent in Hops.
    destruct (tableData date_parse settings (isFlatRate options) entries); [|discriminate].
    injection Hops as <-. cbn [app].
    do 4 right. apply in_app_iff. left. apply in_app_iff. right.
    simpl. tauto.
  - unfold generateInvoice, generatePDF, generateFilePath, generateInvoiceNumberM,
      catch, bind, ret, throw, random, layoutPDF.
    cbn [vault rng draws]. rewrite Hops, Hbuf. reflexivity.
  - exists 0%Q, (1 # 2)%Q.
    split; [unfold Qle, Qlt; simpl; lia|]. split; [unfold Qle, Qlt; simpl; lia|].
    unfold generateInvoiceNumber. intros H.
    apply (f_equal String.length) in H. rewrite !str_length_app in H.
    replace (Z_to_string (Qfloor (0 * inject_Z 10000))) with "0" in H by reflexivity.
    replace (Z_to_string (Qfloor ((1 # 2) * inject_Z 10000))) with "5000" in H
      by reflexivity.
    simpl in H. lia.
Qed.

End GeneratorFacts.

(** C9 witness: a jsPDF that throws while drawing. *)
Lemma generateInvoice_layout_error_witness :
  exists st',
    generateInvoice iso_date_parse (fun _ => Err "autoTable is not a function")
      (fun _ template => template) (fun p => p) (mkNow 2026 9 16) "10/16/2026"
      DEFAULT_SETTINGS [] {| flatRateAmount := None |}
      (mkState (mkVault [] []) (fun _ => 0%Q) 0)
    = (Err ("Failed to generate invoice: PDF generation failed: "
            ++ "autoTable is not a function"), st') /\
    vault st' = mkVault [] [].
Proof.
  apply (generateInvoice_layout_error iso_date_parse
           (fun _ => Err "autoTable is not a function")
           (fun _ template => template) (fun p => p) (mkNow 2026 9 16) "10/16/2026").
  reflexivity.
Defined.

(** C10 witness: draws 0 and 0.5 with a jsPDF that succeeds. *)
Lemma generateInvoice_two_draws_witness :
  let rng0 (k : nat) := match k with O => 0%Q | _ => (1 # 2)%Q end in
  let st := mkState (mkVault [] []) rng0 0 in
  let ops := match addPDFContent iso_date_parse DEFAULT_SETTINGS [] {| flatRateAmount := None |}
                     (generateInvoiceNumber (mkNow 2026 9 16) 0) "10/16/2026" with
             | Ok ops => ops | Err _ => [] end in
  In (TextAt (CStr ("Invoice #: " ++ escapeText (generateInvoiceNumber (mkNow 2026 9 16) 0)))
             200 (Abs 45) true) ops /\
  generateInvoice iso_date_parse (fun _ => Ok []) (fun _ template => template) (fun p => p)
    (mkNow 2026 9 16) "10/16/2026" DEFAULT_SETTINGS [] {| flatRateAmount := None |} st
  = catch (persist (fun p => p)
             (filePathFor (fun _ template => template) (fun p => p) (mkNow 2026 9 16)
                DEFAULT_SETTINGS (generateInvoiceNumber (mkNow 2026 9 16) (1 # 2))) [])
          (fun m => throw ("Failed to generate invoice: " ++ m))
          {| vault := mkVault [] []; rng := rng0; draws := 2 |} /\
  (exists r1 r2, (0 <= r1 < 1)%Q /\ (0 <= r2 < 1)%Q /\
     generateInvoiceNumber (mkNow 2026 9 16) r1 <> generateInvoiceNumber (mkNow 2026 9 16) r2).
Proof.
  intros rng0 st ops.
  apply (generateInvoice_two_draws iso_date_parse (fun _ => Ok [])
           (fun _ template => template) (fun p => p) (mkNow 2026 9 16) "10/16/2026"
           DEFAULT_SETTINGS [] {| flatRateAmount := None |} st ops []);
    reflexivity.
Defined.

(** C1 witness: the amended characterization at ["23-06-15 09:30:00"]. *)
Lemma parseTimeTrackerDate_spec_witness :
  parseTimeTrackerDate iso_date_parse (Some "23-06-15 09:30:00") = Some "2023-06-15T09:30:00".
Proof.
  apply (proj2 (parseTimeTrackerDate_spec iso_date_parse "23-06-15 09:30:00"
                  "2023-06-15T09:30:00")).
  exists "2"%char, "3"%char, "0"%char, "6"%char, "1"%char, "5"%char, "09:30:00".
  split; [reflexivity|]. split; [reflexivity|]. split; [reflexivity|].
  split; [split; vm_compute; discriminate|]. split; [split; vm_compute; discriminate|].
  split; [reflexivity|]. vm_compute. discriminate.
Defined.

(** C6 witness: 1002 rows of four empty cells, then one more row. *)
Lemma extract_entries_window_witness :
  let rows := List.repeat [None; None; None; None] 1002 in
  (1001 <= List.length rows)%nat /\
  extract_entries iso_date_parse (rows ++ [[None]])%list = extract_entries iso_date_parse rows.
Proof.
  intros rows.
  split; [apply Nat.leb_le; reflexivity|].
  apply (proj2 (proj2 (extract_entries_window iso_date_parse rows))).
  apply Nat.leb_le; reflexivity.
Defined.

(* ================================================================== *)
(** * Further properties of the code *)

Lemma list_ascii_app (a b : string) :
  list_ascii_of_string (a ++ b) = (list_ascii_of_string a ++ list_ascii_of_string b)%list.
Proof. induction a as [|c a IH]; simpl; [reflexivity | rewrite IH; reflexivity]. Qed.

Lemma substring0_firstn (n : nat) (s : string) :
  list_ascii_of_string (substring0 n s) = firstn n (list_ascii_of_string s).
Proof.
  unfold substring0. revert n. induction s as [|c s IH]; intros [|n]; simpl; try reflexivity.
  rewrite IH. reflexivity.
Qed.

Lemma in_firstn {A : Type} (n : nat) (l : list A) (x : A) : In x (firstn n l) -> In x l.
Proof.
  revert l. induction n as [|n IH]; intros [|y l]; simpl; try tauto.
  intros [H|H]; [left; exact H | right; apply IH, H].
Qed.

(** [sanitizeText] output. *)
Lemma sanitizeText_chars (text : string) :
  let l := list_ascii_of_string (sanitizeText text) in
  (List.length l <= 500)%nat /\
  (forall c, In c l -> 32 <= code c /\ ~ (127 <= code c <= 159)
                       /\ c <> "<"%char /\ c <> ">"%char).
Proof.
  unfold sanitizeText. destruct (String.eqb text "").
  - simpl. split; [lia | intros c []].
  - rewrite substring0_firstn, list_ascii_of_string_of_list_ascii. split.
    + rewrite length_firstn. lia.
    + intros c Hc. apply in_firstn, filter_In in Hc as [_ Hk].
      unfold sanitize_keep in Hk. rewrite !andb_true_iff, !negb_true_iff in Hk.
      destruct Hk as [[[H1 H2] H3] H4].
      apply Z.leb_gt in H1. rewrite andb_false_iff, Z.leb_gt, Z.leb_gt in H2.
      repeat split; [lia | lia | intros ->; discriminate | intros ->; discriminate].
Qed.

(** X5.  [escapeText] returns at most 1000 characters, none of them a
    control character (codes 0-31 and 127-159). *)
Theorem escapeText_clean (text : string) :
  let l := list_ascii_of_string (escapeText text) in
  (List.length l <= 1000)%nat /\
  (forall c, In c l -> 32 <= code c /\ ~ (127 <= code c <= 159)).
Proof.
  unfold escapeText. destruct (String.eqb text "").
  - simpl. split; [lia | intros c []].
  - rewrite substring0_firstn, list_ascii_of_string_of_list_ascii. split.
    + rewrite length_firstn. lia.
    + intros c Hc. apply in_firstn, filter_In in Hc as [_ Hk].
      rewrite !andb_true_iff, !negb_true_iff in Hk. destruct Hk as [H1 H2].
      apply Z.leb_gt in H1. rewrite andb_false_iff, Z.leb_gt, Z.leb_gt in H2.
      split; lia.
Qed.


Lemma no_hyphen_pair_infix (a m b : list ascii) :
  no_hyphen_pair (a ++ m ++ b)%list -> no_hyphen_pair m.
Proof.
  intros H p q E. apply (H (a ++ p)%list (q ++ b)%list).
  rewrite E, <- !app_assoc. reflexivity.
Qed.

Lemma no_hyphen_pair_cons (c : ascii) (l : list ascii) :
  no_hyphen_pair l -> (c <> "-"%char \/ hd_error l <> Some "-"%char) ->
  no_hyphen_pair (c :: l).
Proof.
  intros H Hc [|x p] q E; simpl in E; injection E as E1 E2.
  - subst. destruct Hc as [Hc|Hc]; apply Hc; reflexivity.
  - exact (H p q E2).
Qed.

Lemma replace_hyphens_shape (prev : bool) (l : list ascii) :
  let out := replace_runs (fun c => Ascii.eqb c "-") "-" prev l in
  no_hyphen_pair out /\ (prev = true -> hd_error out <> Some "-"%char).
Proof.
  revert prev. induction l as [|c t IH]; intros prev; simpl.
  - split; [intros [|x p] q E; discriminate | discriminate].
  - destruct (Ascii.eqb_spec c "-") as [->|Hc].
    + destruct prev.
      * apply IH.
      * destruct (IH true) as [H1 H2]. split; [|discriminate].
        apply no_hyphen_pair_cons; [exact H1 | right; apply H2; reflexivity].
    + destruct (IH false) as [H1 _]. split.
      * apply no_hyphen_pair_cons; [exact H1 | left; exact Hc].
      * intros _ E. injection E. exact Hc.
Qed.

Lemma replace_runs_in (p : ascii -> bool) (r : ascii) (prev : bool) (l : list ascii) (c : ascii) :
  In c (replace_runs p r prev l) -> (In c l /\ p c = false) \/ c = r.
Proof.
  revert prev. induction l as [|x t IH]; intros prev; simpl; [tauto|].
  destruct (p x) eqn:Ex.
  - destruct prev; simpl.
    + intros H. destruct (IH true H) as [[H1 H2]|H']; [left; tauto | right; exact H'].
    + intros [<-|H]; [right; reflexivity|].
      destruct (IH true H) as [[H1 H2]|H']; [left; tauto | right; exact H'].
  - simpl. intros [<-|H]; [left; tauto|].
    destruct (IH false H) as [[H1 H2]|H']; [left; tauto | right; exact H'].
Qed.

Lemma strip_hyphens_infix (l : list ascii) :
  exists a b, l = (a ++ strip_hyphens l ++ b)%list.
Proof.
  unfold strip_hyphens; cbv zeta.
  set (l1 := match l with
             | c :: t => if Ascii.eqb c "-" then t else l
             | [] => [] end).
  assert (H1 : exists a, l = (a ++ l1)%list).
  { subst l1. destruct l as [|c t]; [exists []; reflexivity|].
    destruct (Ascii.eqb c "-"); [exists [c]; reflexivity | exists []; reflexivity]. }
  destruct H1 as [a Ha].
  destruct (rev l1) as [|d u] eqn:E.
  - exists l, []. rewrite !app_nil_r. reflexivity.
  - assert (Hl1 : l1 = (rev u ++ [d])%list) by (rewrite <- (rev_involutive l1), E; reflexivity).
    destruct (Ascii.eqb d "-").
    + exists a, [d]. rewrite Ha, Hl1. reflexivity.
    + exists a, []. rewrite app_nil_r. exact Ha.
Qed.

Lemma hd_prefix (r b : list ascii) (x : ascii) :
  hd_error (r ++ b)%list <> Some x -> r <> [] -> hd_error r <> Some x.
Proof. destruct r; simpl; [congruence | auto]. Qed.

Lemma strip_hyphens_hd (l : list ascii) :
  no_hyphen_pair l -> hd_error (strip_hyphens l) <> Some "-"%char.
Proof.
  intros Hl. unfold strip_hyphens; cbv zeta.
  set (l1 := match l with
             | c :: t => if Ascii.eqb c "-" then t else l
             | [] => [] end).
  assert (H1 : hd_error l1 <> Some "-"%char).
  { subst l1. destruct l as [|c t]; [discriminate|].
    destruct (Ascii.eqb_spec c "-") as [->|Hc].
    - destruct t as [|d t]; [discriminate|]. simpl. intros E. injection E as ->.
      apply (Hl [] t). reflexivity.
    - simpl. intros E. injection E. exact Hc. }
  destruct (rev l1) as [|d u] eqn:E; [discriminate|].
  assert (Hl1 : l1 = (rev u ++ [d])%list) by (rewrite <- (rev_involutive l1), E; reflexivity).
  destruct (Ascii.eqb d "-"); [|exact H1].
  destruct (rev u) as [|x v] eqn:Eu; [discriminate|].
  rewrite Hl1 in H1. exact H1.
Qed.

Lemma sanitizeFilename_chars (filename : string) :
  let l := list_ascii_of_string (sanitizeFilename filename) in
  (List.length l <= 50)%nat /\
  (forall c, In c l -> filename_unsafe c = false /\ is_ws c = false) /\
  hd_error l <> Some "-"%char /\
  no_hyphen_pair l.
Proof.
  unfold sanitizeFilename. rewrite substring0_firstn, list_ascii_of_string_of_list_ascii.
  set (l1 := map _ _). set (l2 := replace_runs is_ws "-" false l1).
  set (l3 := replace_runs (fun c => Ascii.eqb c "-") "-" false l2).
  destruct (replace_hyphens_shape false l2) as [H3 _]. fold l3 in H3.
  destruct (strip_hyphens_infix l3) as (a & b & Hab).
  assert (Hhd : hd_error (strip_hyphens l3) <> Some "-"%char) by (apply strip_hyphens_hd, H3).
  assert (Hnp : no_hyphen_pair (strip_hyphens l3))
    by (apply (no_hyphen_pair_infix a _ b); rewrite <- Hab; exact H3).
  split; [rewrite length_firstn; lia|]. split; [|split].
  - intros c Hc. apply in_firstn in Hc.
    assert (Hc3 : In c l3) by (rewrite Hab; apply in_or_app; right; apply in_or_app; left; exact Hc).
    apply replace_runs_in in Hc3 as [[Hc2 _]| ->]; [|split; reflexivity].
    apply replace_runs_in in Hc2 as [[Hc1 Hw]| ->]; [|split; reflexivity].
    apply in_map_iff in Hc1 as (x & Ex & _).
    destruct (filename_unsafe x) eqn:Ux.
    + subst c. split; reflexivity.
    + subst c. split; [exact Ux | exact Hw].
  - destruct (firstn 50 (strip_hyphens l3)) as [|x r] eqn:Ef; [discriminate|].
    rewrite <- (firstn_skipn 50 (strip_hyphens l3)), Ef in Hhd. exact Hhd.
  - apply (no_hyphen_pair_infix [] _ (skipn 50 (strip_hyphens l3))).
    rewrite app_nil_l, firstn_skipn. exact Hnp.
Qed.


Lemma string_of_uint_digits (d : Decimal.uint) (c : ascii) :
  In c (list_ascii_of_string (NilEmpty.string_of_uint d)) -> is_digit c = true.
Proof.
  induction d; simpl; intros H; try contradiction;
    destruct H as [<-|H]; [reflexivity | auto | reflexivity | auto | reflexivity | auto
    | reflexivity | auto | reflexivity | auto | reflexivity | auto | reflexivity | auto
    | reflexivity | auto | reflexivity | auto | reflexivity | auto].
Qed.

Lemma Z_to_string_chars (x : Z) (c : ascii) :
  In c (list_ascii_of_string (Z_to_string x)) -> is_digit c = true \/ c = "-"%char.
Proof.
  unfold Z_to_string, NilEmpty.string_of_int. destruct (Z.to_int x) as [d|d].
  - intros H. left. exact (string_of_uint_digits d c H).
  - simpl. intros [<-|H]; [right; reflexivity | left; exact (string_of_uint_digits d c H)].
Qed.

Lemma pad2_chars (s : string) (c : ascii) :
  In c (list_ascii_of_string (pad2 s)) -> c = "0"%char \/ In c (list_ascii_of_string s).
Proof.
  unfold pad2. destruct (String.length s) as [|[|n]]; simpl.
  - intros [<-|[<-|[]]]; left; reflexivity.
  - intros [<-|H]; [left; reflexivity | right; exact H].
  - intros H; right; exact H.
Qed.

Lemma invoiceNumber_chars (now : Now) (r : Q) (c : ascii) :
  In c (list_ascii_of_string (generateInvoiceNumber now r)) -> is_digit c = true \/ c = "-"%char.
Proof.
  unfold generateInvoiceNumber. rewrite !list_ascii_app. simpl.
  intros H. repeat (apply in_app_or in H as [H|H] || destruct H as [<-|H]);
    try (right; reflexivity);
    try (apply Z_to_string_chars in H; exact H);
    (apply pad2_chars in H as [->|H]; [left; reflexivity | apply Z_to_string_chars in H; exact H]).
Qed.


(** X4.  [generateFilePath] draws one random number and returns
    [normalizePath(directory + "/" + filename)], the directory being the
    formatted [invoiceDirectory] (or ['Invoices/YYYY/MM'] when empty) and the
    file name [sanitizeFilename(companyName || 'Company') + "-invoice-" +
    invoiceNumber + ".pdf"]; that file name contains no [/] and no [\], so
    the company name cannot move the file to another folder. *)
Theorem generateFilePath_safe (moment_format : Now -> string -> string)
    (normalizePath : string -> string) (now : Now) (settings : InvoiceSettings)
    (st : GenState) :
  let fname := sanitizeFilename (or_default (Some (companyName settings)) "Company")
               ++ "-invoice-" ++ generateInvoiceNumber now (rng st (draws st)) ++ ".pdf" in
  generateFilePath moment_format normalizePath now settings st
  = (Ok (normalizePath (moment_format now (or_default (Some (invoiceDirectory settings))
                                                      "Invoices/YYYY/MM") ++ "/" ++ fname)),
     {| vault := vault st; rng := rng st; draws := S (draws st) |}) /\
  (forall c, In c (list_ascii_of_string fname) -> c <> "/"%char /\ c <> "\"%char).
Proof.
  intros fname. split; [reflexivity|].
  intros c Hc. subst fname. rewrite !list_ascii_app in Hc.
  apply in_app_or in Hc as [Hc|Hc].
  - destruct (sanitizeFilename_chars (or_default (Some (companyName settings)) "Company"))
      as (_ & Hs & _). destruct (Hs c Hc) as [Hu _].
    split; intros ->; discriminate Hu.
  - apply in_app_or in Hc as [Hc|Hc]; [simpl in Hc; intuition (subst; discriminate)|].
    apply in_app_or in Hc as [Hc|Hc]; [|simpl in Hc; intuition (subst; discriminate)].
    apply invoiceNumber_chars in Hc as [Hc| ->]; [|split; discriminate].
    split; intros ->; discriminate Hc.
Qed.


Lemma normalizer_canonical (date_parse : string -> option Z) (o : option string) (t : string) :
  parseTimeTrackerDate date_parse o = Some t -> canonical_timestamp date_parse t.
Proof.
  destruct o as [s|]; [|discriminate]. intros H.
  apply parseTimeTrackerDate_some_inv in H as (y1&y2&m1&m2&d1&d2&tm&Hd&Ht&_&Hm&Hdd&->&Hp).
  exists y1, y2, m1, m2, d1, d2, tm. repeat split; assumption || lia.
Qed.

Lemma extract_entries_eq (date_parse : string -> option Z) (rows : list Row) :
  extract_entries date_parse rows
  = map (row_entry date_parse) (filter has4 (firstn 1000 (skipn 1 rows))).
Proof.
  destruct rows as [|r0 rs'] eqn:Ers; [reflexivity|]. rewrite <- Ers.
  unfold extract_entries.
  rewrite extract_loop by (subst rows; simpl; lia). rewrite app_nil_l.
  f_equal. f_equal.
  destruct (Nat.le_gt_cases (List.length rows) 1001) as [Hle|Hgt].
  - rewrite Nat.min_l by lia.
    rewrite !firstn_all2; [reflexivity| |]; rewrite length_skipn; lia.
  - rewrite Nat.min_r by lia. reflexivity.
Qed.

(** X1.  Every record [extractDataFromTable] builds has a level in 0..10, a
    name of at most 500 characters with no control character and no [<] or
    [>], and start and end times that are either absent or canonical
    [YYYY-MM-DDTHH:MM:SS] timestamps that [Date.parse] accepts. *)
Theorem extract_records_wellformed (date_parse : string -> option Z) (rows : list Row) :
  Forall (fun r =>
    0 <= rec_level r <= 10 /\
    (List.length (list_ascii_of_string (rec_name r)) <= 500)%nat /\
    (forall c, In c (list_ascii_of_string (rec_name r)) ->
       32 <= code c /\ ~ (127 <= code c <= 159) /\ c <> "<"%char /\ c <> ">"%char) /\
    (forall t, rec_startTime r = Some t -> canonical_timestamp date_parse t) /\
    (forall t, rec_endTime r = Some t -> canonical_timestamp date_parse t))
    (extract_entries date_parse rows).
Proof.
  rewrite extract_entries_eq. apply Forall_map, Forall_forall. intros cells _.
  unfold row_entry. cbn [rec_level rec_name rec_startTime rec_endTime].
  split; [lia|]. split; [apply sanitizeText_chars|]. split; [apply sanitizeText_chars|].
  split; intros t Ht; eapply normalizer_canonical; exact Ht.
Qed.

(** X2.  [extractDataFromTable] returns [null] exactly when every row it
    scans (the rows after the header, at most 1000 of them) has fewer than
    four cells. *)
Theorem extractDataFromTable_null (date_parse : string -> option Z) (rows : list Row) :
  extractDataFromTable date_parse rows = None <->
  Forall (fun cells => (List.length cells < 4)%nat) (firstn 1000 (skipn 1 rows)).
Proof.
  unfold extractDataFromTable. rewrite extract_entries_eq, length_map.
  rewrite Forall_forall. split.
  - intros H cells Hin. destruct (Nat.lt_ge_cases (List.length cells) 4) as [Hl|Hge]; [exact Hl|].
    exfalso.
    assert (Hf : In cells (filter has4 (firstn 1000 (skipn 1 rows))))
      by (apply filter_In; split; [exact Hin | apply Nat.leb_le; exact Hge]).
    destruct (filter has4 (firstn 1000 (skipn 1 rows))); [contradiction | discriminate].
  - intros H.
    replace (filter has4 (firstn 1000 (skipn 1 rows))) with (@nil Row); [reflexivity|].
    symmetry. induction (firstn 1000 (skipn 1 rows)) as [|cells l IH]; [reflexivity|].
    simpl. unfold has4 at 1.
    replace (4 <=? List.length cells)%nat with false
      by (symmetry; apply Nat.leb_gt, H; left; reflexivity).
    apply IH. intros x Hx. apply H. right. exact Hx.
Qed.


(** Rows of the table. *)
Lemma tableRow_cases (date_parse : string -> option Z) (settings : InvoiceSettings)
    (flat : bool) (e : TimeEntry) :
  match tableRow date_parse settings flat e with
  | Ok row =>
      (forall l, level e = Some l -> 0 <= l) /\
      List.length row = 6%nat /\
      nth 0 row (CStr "") = CStr (escapeText (repeat_str "  "
                                  (Z.to_nat (Z.min match level e with Some l => l | None => 0 end 10))
                                  ++ name e)) /\
      nth 3 row (CStr "") = CFixed2 (JFin (calculateEntryDuration date_parse e)) /\
      (flat = true -> skipn 4 row = [CStr "-"; CStr "-"]) /\
      (flat = false -> nth 5 row (CStr "")
                       = CFixed2 (js_mul (JFin (calculateEntryDuration date_parse e))
                                         (hourlyRate settings)))
  | Err m => exists l, level e = Some l /\ l < 0 /\ m = "Invalid count value: " ++ Z_to_string l
  end.
Proof.
  unfold tableRow.
  destruct (Z.ltb_spec (Z.min match level e with Some l => l | None => 0 end 10) 0) as [Hn|Hn];
    cbn beta iota zeta.
  - destruct (level e) as [l|] eqn:El; [|lia].
    exists l. split; [reflexivity|]. split; [lia|]. rewrite Z.min_l by lia. reflexivity.
  - destruct flat; cbn beta iota; (split; [intros l El; rewrite El in Hn; lia|]);
      repeat split; try discriminate; reflexivity.
Qed.

Lemma tableData_ok (date_parse : string -> option Z) (settings : InvoiceSettings)
    (flat : bool) (entries : list TimeEntry) (rows : list (list CellText)) :
  tableData date_parse settings flat entries = Ok rows ->
  List.length rows = List.length entries /\
  Forall (fun row => List.length row = 6%nat) rows /\
  map (fun row => nth 0 row (CStr "")) rows
  = map (fun e => CStr (escapeText (repeat_str "  "
             (Z.to_nat (Z.min match level e with Some l => l | None => 0 end 10)) ++ name e)))
        entries /\
  map (fun row => nth 3 row (CStr "")) rows
  = map (fun e => CFixed2 (JFin (calculateEntryDuration date_parse e))) entries /\
  (flat = true -> Forall (fun row => skipn 4 row = [CStr "-"; CStr "-"]) rows) /\
  (flat = false -> map (fun row => nth 5 row (CStr "")) rows
     = map (fun e => CFixed2 (js_mul (JFin (calculateEntryDuration date_parse e))
                                     (hourlyRate settings))) entries).
Proof.
  revert rows. induction entries as [|e es IH]; intros rows H.
  - simpl in H. injection H as <-. repeat split; try constructor; reflexivity.
  - simpl in H. pose proof (tableRow_cases date_parse settings flat e) as Hc.
    destruct (tableRow date_parse settings flat e) as [row|m]; [|discriminate].
    destruct (tableData date_parse settings flat es) as [rs|m]; [|discriminate].
    injection H as <-. destruct (IH rs eq_refl) as (H1 & H2 & H3 & H4 & H5 & H6).
    destruct Hc as (_ & C1 & C2 & C3 & C4 & C5).
    split; [simpl; lia|]. split; [constructor; assumption|].
    split; [simpl; rewrite C2, H3; reflexivity|].
    split; [simpl; rewrite C3, H4; reflexivity|].
    split; [intros Hf; constructor; [apply C4 | apply H5]; exact Hf|].
    intros Hf. simpl. rewrite C5, H6 by exact Hf. reflexivity.
Qed.



Lemma tableData_levels (date_parse : string -> option Z) (settings : InvoiceSettings)
    (flat : bool) (entries : list TimeEntry) :
  (forall e l, In e entries -> level e = Some l -> 0 <= l) ->
  exists rows, tableData date_parse settings flat entries = Ok rows.
Proof.
  induction entries as [|e es IH]; intros H; simpl; [eexists; reflexivity|].
  pose proof (tableRow_cases date_parse settings flat e) as Hc.
  destruct (tableRow date_parse settings flat e) as [row|m].
  - destruct IH as [rs ->]; [intros e' l Hin; apply H; right; exact Hin|].
    eexists; reflexivity.
  - destruct Hc as (l & Hl & Hneg & _). exfalso.
    specialize (H e l (or_introl eq_refl) Hl). lia.
Qed.

Lemma addPDFContent_table (date_parse : string -> option Z) (settings : InvoiceSettings)
    (entries : list TimeEntry) (options : InvoiceOptions) (invoiceNumber invoiceDate : string)
    (ops : list DocOp) :
  addPDFContent date_parse settings entries options invoiceNumber invoiceDate = Ok ops ->
  exists body,
    tableData date_parse settings (isFlatRate options) entries = Ok body /\
    In (AutoTable ["Task"; "Start Time"; "End Time"; "Hours"; "Rate"; "Amount"] body 70) ops /\
    In (TextAt (CFixed2 (JFin (calculateTotalHours date_parse entries))) 190 (AfterTable 0) true) ops /\
    In (TextAt (CFixed2 match flatRateAmount options with
                        | Some amount => amount
                        | None => hourlyRate settings
                        end) 190 (AfterTable 7) true) ops /\
    In (TextAt (CFixed2 (subtotal date_parse settings entries options)) 190 (AfterTable 20) true) ops.
Proof.
  unfold addPDFContent.
  destruct (tableData date_parse settings (isFlatRate options) entries) as [body|m]; [|discriminate].
  intros H. injection H as <-. exists body. split; [reflexivity|].
  destruct (flatRateAmount options) eqn:Ef;
    (split; [do 4 right; rewrite in_app_iff; right; left; reflexivity|]);
    (split; [do 4 right; rewrite in_app_iff; right; simpl; do 3 right; left; reflexivity|]);
    (split; [do 4 right; rewrite in_app_iff; right; simpl; do 5 right; left; reflexivity|]);
    do 4 right; rewrite in_app_iff; right; simpl; do 9 right; left; reflexivity.
Qed.

Lemma fold_right_map_Qplus {A : Type} (f : A -> Q) (l : list A) :
  fold_right (fun x t => f x + t)%Q 0%Q l = fold_right Qplus 0%Q (map f l).
Proof. induction l as [|x l IH]; simpl; [reflexivity | rewrite IH; reflexivity]. Qed.


Lemma calculateTotalHours_sum (date_parse : string -> option Z) (entries : list TimeEntry) :
  (calculateTotalHours date_parse entries
   == fold_right Qplus 0 (map (calculateEntryDuration date_parse) entries))%Q.
Proof.
  unfold calculateTotalHours. rewrite fold_left_Qplus, fold_right_map_Qplus. ring.
Qed.



(** X8.  With a flat rate [amount], a document [addPDFContent] draws lists
    each entry's hours, shows ["-"] in the Rate and Amount columns of every
    row, prints the sum of the hours as total, and prints [amount] both as
    the rate and as the subtotal. *)
Theorem flat_summary (date_parse : string -> option Z) (settings : InvoiceSettings)
    (entries : list TimeEntry) (invoiceNumber invoiceDate : string) (amount : jsnum)
    (ops : list DocOp)
    (Hops : addPDFContent date_parse settings entries {| flatRateAmount := Some amount |}
              invoiceNumber invoiceDate = Ok ops) :
  exists body T,
    In (AutoTable ["Task"; "Start Time"; "End Time"; "Hours"; "Rate"; "Amount"] body 70) ops /\
    In (TextAt (CFixed2 (JFin T)) 190 (AfterTable 0) true) ops /\
    In (TextAt (CFixed2 amount) 190 (AfterTable 7) true) ops /\
    In (TextAt (CFixed2 amount) 190 (AfterTable 20) true) ops /\
    map (fun row => nth 3 row (CStr "")) body
    = map (fun e => CFixed2 (JFin (calculateEntryDuration date_parse e))) entries /\
    Forall (fun row => skipn 4 row = [CStr "-"; CStr "-"]) body /\
    (T == fold_right Qplus 0 (map (calculateEntryDuration date_parse) entries))%Q.
Proof.
  apply addPDFContent_table in Hops as (body & Hb & I1 & I2 & I3 & I4).
  destruct (tableData_ok _ _ _ _ _ Hb) as (_ & _ & _ & H3 & H4 & _).
  exists body, (calculateTotalHours date_parse entries).
  split; [exact I1|]. split; [exact I2|]. split; [exact I3|]. split; [exact I4|].
  split; [exact H3|]. split; [exact (H4 eq_refl)|].
  apply calculateTotalHours_sum.
Qed.


Lemma parseEnvelope_map (date_parse : string -> option Z) (records : list RawRecord) :
  parseEnvelope date_parse records
  = map (fun r => processEntry date_parse (envelope_entry r) 0) records.
Proof.
  unfold parseEnvelope, processEntries.
  induction records as [|r rs IH]; [reflexivity|]. simpl. rewrite IH. reflexivity.
Qed.

(** X9.  When [extractDataFromTable] finds records, the entries
    [addInvoiceButton] obtains from [parser.parse] are not empty, keep the
    records' names and times in order, all sit at level 0, and give a table
    whose Task cells are the escaped names without indent; the document is
    then laid out without error whatever the settings and options. *)
Theorem extract_parse_pipeline (date_parse : string -> option Z) (rows : list Row)
    (records : list RawRecord)
    (H : extractDataFromTable date_parse rows = Some records) :
  parseEnvelope date_parse records <> [] /\
  map (fun p => (p_name p, p_startTime p, p_endTime p, p_level p)) (parseEnvelope date_parse records)
  = map (fun r => (rec_name r, rec_startTime r, rec_endTime r, 0)) records /\
  (forall settings flat, exists body,
     tableData date_parse settings flat (map generatorEntry (parseEnvelope date_parse records))
     = Ok body /\
     map (fun row => nth 0 row (CStr "")) body
     = map (fun r => CStr (escapeText (rec_name r))) records) /\
  (forall settings options invoiceNumber invoiceDate, exists ops,
     addPDFContent date_parse settings (map generatorEntry (parseEnvelope date_parse records))
       options invoiceNumber invoiceDate = Ok ops).
Proof.
  unfold extractDataFromTable in H.
  destruct (0 <? List.length (extract_entries date_parse rows))%nat eqn:Hl; [|discriminate].
  injection H as <-. apply Nat.ltb_lt in Hl.
  set (records := extract_entries date_parse rows) in *.
  rewrite parseEnvelope_map.
  assert (Hlev : forall e l, In e (map generatorEntry
                   (map (fun r => processEntry date_parse (envelope_entry r) 0) records)) ->
                 level e = Some l -> 0 <= l).
  { intros e l Hin Hle. rewrite map_map in Hin. apply in_map_iff in Hin as (r & <- & _).
    cbn in Hle. injection Hle as <-. lia. }
  split; [|split; [|split]].
  - destruct records; [simpl in Hl; lia | discriminate].
  - rewrite map_map. reflexivity.
  - intros settings flat.
    destruct (tableData_levels date_parse settings flat _ Hlev) as [body Hb].
    exists body. split; [exact Hb|].
    destruct (tableData_ok _ _ _ _ _ Hb) as (_ & _ & H0 & _).
    rewrite H0, !map_map. reflexivity.
  - intros settings options invoiceNumber invoiceDate.
    destruct (tableData_levels date_parse settings (isFlatRate options) _ Hlev) as [body Hb].
    unfold addPDFContent. rewrite Hb. eexists; reflexivity.
Qed.

(** Every processed entry is [processEntry] of some entry at some level. *)
Lemma processTree_in (date_parse : string -> option Z) (e : RawEntry) :
  forall d p, In p (processTree date_parse e d) -> exists e' l, p = processEntry date_parse e' l.
Proof.
  induction e as [n s t subs IH] using RawEntry_tree_ind. intros d p Hin.
  simpl in Hin. destruct Hin as [<-|Hin]; [eexists; eexists; reflexivity|].
  destruct subs as [|x xs]; [contradiction|].
  apply in_flat_map in Hin as (e' & He' & Hp).
  rewrite Forall_forall in IH. exact (IH e' He' (d + 1) p Hp).
Qed.

Lemma processEntries_in (date_parse : string -> option Z) (es : list RawEntry) (d : Z) (p : ParsedEntry) :
  In p (processEntries date_parse es d) -> exists e l, p = processEntry date_parse e l.
Proof.
  unfold processEntries. intros Hin. apply in_flat_map in Hin as (e & _ & Hp).
  exact (processTree_in date_parse e d p Hp).
Qed.

Lemma generator_duration_of_processed (date_parse : string -> option Z) (e : RawEntry) (l : Z) :
  let p := processEntry date_parse e l in
  p_duration p = calculateDuration date_parse (p_startTime p) (p_endTime p) /\
  (calculateEntryDuration date_parse (generatorEntry p)
   == match p_duration p with
      | Some x => Qmax 0 (Qmin x (inject_Z (24 * 365)))
      | None => 0
      end)%Q.
Proof.
  split; [reflexivity|].
  unfold generatorEntry, processEntry, calculateEntryDuration, calculateDuration.
  cbn [startTime endTime p_startTime p_endTime p_duration].
  destruct (raw_startTime e) as [s|], (raw_endTime e) as [t|]; try reflexivity.
  destruct (String.eqb s "" || String.eqb t ""); [reflexivity|].
  destruct (date_parse s), (date_parse t); reflexivity.
Qed.

(** X10.  Every entry [processEntries] returns has the duration
    [calculateDuration] gives for its own times, and the generator's
    [calculateEntryDuration] of the same entry is that duration clamped to
    [0, 8760] hours, or 0 when the parser's duration is [NaN]. *)
Theorem processed_durations (date_parse : string -> option Z) (es : list RawEntry) (d : Z) :
  Forall (fun p =>
    p_duration p = calculateDuration date_parse (p_startTime p) (p_endTime p) /\
    (calculateEntryDuration date_parse (generatorEntry p)
     == match p_duration p with
        | Some x => Qmax 0 (Qmin x (inject_Z (24 * 365)))
        | None => 0
        end)%Q) (processEntries date_parse es d).
Proof.
  apply Forall_forall. intros p Hin.
  destruct (processEntries_in date_parse es d p Hin) as (e & l & ->).
  apply generator_duration_of_processed.
Qed.

Lemma clamp_id (x : Q) : (0 <= x <= inject_Z (24 * 365))%Q ->
  (Qmax 0 (Qmin x (inject_Z (24 * 365))) == x)%Q.
Proof.
  intros [H0 H1]. rewrite Q.min_l by exact H1. apply Q.max_r. exact H0.
Qed.

Lemma totals_agree_acc (date_parse : string -> option Z) (ps : list ParsedEntry) (a b : Q) :
  Forall (fun p => forall x, p_duration p = Some x -> (0 <= x <= inject_Z 8760)%Q) ps ->
  Forall (fun p =>
    (calculateEntryDuration date_parse (generatorEntry p)
     == match p_duration p with
        | Some x => Qmax 0 (Qmin x (inject_Z (24 * 365)))
        | None => 0
        end)%Q) ps ->
  (a == b)%Q ->
  (fold_left (fun total entry => total + calculateEntryDuration date_parse entry)%Q
     (map generatorEntry ps) a
   == fold_left (fun total entry => total + match p_duration entry with
                                            | Some d => d
                                            | None => 0
                                            end)%Q ps b)%Q.
Proof.
  intros Hrange Hrel. revert a b.
  induction ps as [|p ps IH]; intros a b Hab; [exact Hab|].
  inversion Hrange as [|? ? Hp Hps]; subst. inversion Hrel as [|? ? Rp Rps]; subst.
  simpl. apply IH; [exact Hps | exact Rps|].
  rewrite Rp, Hab.
  destruct (p_duration p) as [x|] eqn:Ex.
  - rewrite clamp_id; [reflexivity|]. exact (Hp x eq_refl).
  - reflexivity.
Qed.

(** X11.  When every duration of the parsed entries lies in [0, 8760] hours,
    the generator's [calculateTotalHours] of the entries handed to it equals
    the parser's [getTotalHours]. *)
Theorem totals_agree (date_parse : string -> option Z) (es : list RawEntry) (d : Z)
    (Hrange : Forall (fun p => forall x, p_duration p = Some x -> (0 <= x <= inject_Z 8760)%Q)
                     (processEntries date_parse es d)) :
  (calculateTotalHours date_parse (map generatorEntry (processEntries date_parse es d))
   == getTotalHours (processEntries date_parse es d))%Q.
Proof.
  unfold calculateTotalHours, getTotalHours.
  apply totals_agree_acc; [exact Hrange| |reflexivity].
  apply Forall_forall. intros p Hin.
  destruct (processEntries_in date_parse es d p Hin) as (e & l & ->).
  apply generator_duration_of_processed.
Qed.

(** X12.  Whatever values are typed into the flat-rate field, the options
    [InvoiceOptionsModal] submits carry either no flat rate or a positive
    one (a positive number or [Infinity]); so a flat-rate invoice never has
    a zero, negative or [NaN] subtotal. *)
Theorem modal_result_positive (amounts : list jsnum) :
  match flatRateAmount (modal_result amounts) with
  | None => True
  | Some x => x = JPosInf \/ exists q, x = JFin q /\ (0 < q)%Q
  end /\
  (forall date_parse settings entries,
     isFlatRate (modal_result amounts) = true ->
     js_gt0 (subtotal date_parse settings entries (modal_result amounts)) = true).
Proof.
  assert (Hinv : forall l r,
    match flatRateAmount r with None => True | Some x => js_isNaN x = false /\ js_gt0 x = true end ->
    match flatRateAmount (fold_left (fun r a => modal_onChange a r) l r) with
    | None => True
    | Some x => js_isNaN x = false /\ js_gt0 x = true
    end).
  { induction l as [|a l IH]; intros r Hr; [exact Hr|]. simpl. apply IH.
    unfold modal_onChange. destruct (negb (js_isNaN a) && js_gt0 a) eqn:E; [|exact I].
    apply andb_true_iff in E as [E1 E2]. apply negb_true_iff in E1. simpl. tauto. }
  specialize (Hinv amounts {| flatRateAmount := None |} I). fold (modal_result amounts) in Hinv.
  split.
  - destruct (flatRateAmount (modal_result amounts)) as [x|]; [|exact I].
    destruct Hinv as [_ Hg]. destruct x as [q| | |]; try discriminate.
    + right. exists q. split; [reflexivity|]. unfold js_gt0 in Hg.
      apply negb_true_iff in Hg. apply Qnot_le_lt. intros Hle.
      apply Qle_bool_iff in Hle. congruence.
    + left. reflexivity.
  - intros date_parse settings entries Hf. unfold subtotal, isFlatRate in *.
    destruct (flatRateAmount (modal_result amounts)) as [x|]; [|discriminate].
    exact (proj2 Hinv).
Qed.

(** X13.  Starting from settings with a non-negative, non-[NaN] hourly rate
    and a non-empty invoice directory, any sequence of edits in the settings
    tab keeps the hourly rate non-negative and not [NaN] and the invoice
    directory non-empty, and never changes the company logo. *)
Theorem settings_edits_invariant (edits : list SettingsEdit) (s : InvoiceSettings)
    (Hnan : js_isNaN (hourlyRate s) = false) (Hge : js_ge0 (hourlyRate s) = true)
    (Hdir : invoiceDirectory s <> "") :
  js_isNaN (hourlyRate (settings_edits edits s)) = false /\
  js_ge0 (hourlyRate (settings_edits edits s)) = true /\
  invoiceDirectory (settings_edits edits s) <> "" /\
  companyLogo (settings_edits edits s) = companyLogo s.
Proof.
  unfold settings_edits. revert s Hnan Hge Hdir.
  induction edits as [|e es IH]; intros s Hnan Hge Hdir; [tauto|].
  simpl. destruct (IH (settings_onChange e s)) as (H1 & H2 & H3 & H4).
  - destruct e; simpl; try exact Hnan.
    destruct (negb (js_isNaN rate) && js_ge0 rate) eqn:E; [|exact Hnan].
    apply andb_true_iff in E as [E _]. apply negb_true_iff in E. exact E.
  - destruct e; simpl; try exact Hge.
    destruct (negb (js_isNaN rate) && js_ge0 rate) eqn:E; [|exact Hge].
    apply andb_true_iff in E as [_ E]. exact E.
  - destruct e; simpl; try exact Hdir.
    + destruct (negb (js_isNaN rate) && js_ge0 rate); exact Hdir.
    + unfold or_default. destruct (String.eqb_spec value ""); [discriminate | exact n].
  - split; [exact H1|]. split; [exact H2|]. split; [exact H3|].
    rewrite H4. destruct e; try reflexivity. simpl.
    destruct (negb (js_isNaN rate) && js_ge0 rate); reflexivity.
Qed.



Lemma vault_grows_refl (st : GenState) : vault_grows st st.
Proof. repeat split; auto. Qed.

Lemma vault_grows_trans (a b c : GenState) :
  vault_grows a b -> vault_grows b c -> vault_grows a c.
Proof.
  intros (F1 & E1 & R1 & D1) (F2 & E2 & R2 & D2).
  repeat split; try congruence. intros p H. apply E2, E1, H.
Qed.

Lemma createFolder_new (p : string) (st : GenState) :
  vault_exists p (vault st) = false ->
  exists st', createFolder p st = (Ok tt, st') /\ vault_grows st st' /\
              vault_exists p (vault st') = true.
Proof.
  intros H. unfold createFolder. rewrite H. eexists. split; [reflexivity|].
  split; [|unfold vault_exists; simpl; rewrite String.eqb_refl; reflexivity].
  repeat split; simpl; auto.
  intros q Hq. unfold vault_exists in *. simpl.
  apply orb_true_iff in Hq as [Hq|Hq]; apply orb_true_iff; [left|right]; simpl;
    [rewrite Hq, orb_true_r; reflexivity | exact Hq].
Qed.


Lemma createDirectoryLoop_ok (normalizePath : string -> string) (parts : list string) :
  forall cur st, exists st',
    createDirectoryLoop normalizePath parts cur st = (Ok tt, st') /\ vault_grows st st' /\
    forall k, (1 <= k <= List.length parts)%nat ->
      vault_exists (normalizePath (fold_left next_path (firstn k parts) cur)) (vault st') = true.
Proof.
  induction parts as [|part rest IH]; intros cur st.
  - exists st. split; [reflexivity|]. split; [apply vault_grows_refl|]. simpl. lia.
  - set (cur' := next_path cur part).
    assert (Hstep : exists st1, (if vault_exists (normalizePath cur') (vault st) then ret tt
                                 else ignore_already_exists (createFolder (normalizePath cur'))) st
                                = (Ok tt, st1) /\ vault_grows st st1 /\
                                vault_exists (normalizePath cur') (vault st1) = true).
    { destruct (vault_exists (normalizePath cur') (vault st)) eqn:E.
      - exists st. split; [reflexivity|]. split; [apply vault_grows_refl | exact E].
      - destruct (createFolder_new _ _ E) as (st1 & H1 & H2 & H3).
        exists st1. split; [|split; assumption].
        unfold ignore_already_exists, catch. rewrite H1. reflexivity. }
    destruct Hstep as (st1 & Hs1 & G1 & X1).
    destruct (IH cur' st1) as (st2 & Hs2 & G2 & X2).
    exists st2. split.
    + cbn [createDirectoryLoop]. unfold bind at 1, existsM. cbn [fst snd].
      unfold bind at 1. fold (next_path cur part). fold cur'.
      rewrite Hs1. exact Hs2.
    + split; [exact (vault_grows_trans _ _ _ G1 G2)|].
      intros [|[|k]] Hk; [lia| |].
      * simpl. destruct G2 as (_ & E2 & _). apply E2, X1.
      * change (firstn (S (S k)) (part :: rest)) with (part :: firstn (S k) rest).
        cbn [fold_left]. apply X2. simpl in Hk. lia.
Qed.

Lemma string_app_assoc (a b c : string) : (a ++ b) ++ c = a ++ (b ++ c).
Proof. induction a as [|x a IH]; simpl; [reflexivity | rewrite IH; reflexivity]. Qed.

Lemma fold_next_path_join (l : list string) :
  forall x, x <> "" -> fold_left next_path l x = join "/" (x :: l).
Proof.
  induction l as [|p l IH]; intros x Hx; [reflexivity|].
  cbn [fold_left]. unfold next_path at 2.
  destruct (String.eqb_spec x "") as [E|_]; [contradiction|].
  rewrite IH by (destruct x; [contradiction | discriminate]).
  destruct l as [|q l]; [reflexivity|].
  change (join "/" ((x ++ "/" ++ p) :: q :: l))
    with ((x ++ "/" ++ p) ++ String "/" (join "/" (q :: l))).
  change (join "/" (x :: p :: q :: l))
    with (x ++ String "/" (p ++ String "/" (join "/" (q :: l)))).
  rewrite string_app_assoc. reflexivity.
Qed.

Lemma fold_next_path_firstn (parts : list string) (k : nat) :
  Forall (fun p => p <> "") parts -> (1 <= k)%nat ->
  fold_left next_path (firstn k parts) "" = join "/" (firstn k parts).
Proof.
  intros Hne Hk. destruct parts as [|p rest]; [destruct k; reflexivity|].
  destruct k as [|k]; [lia|]. cbn [firstn fold_left].
  inversion Hne; subst.
  unfold next_path at 2. rewrite String.eqb_refl.
  apply fold_next_path_join. assumption.
Qed.

Lemma filter_nonempty_parts (l : list string) :
  Forall (fun p => p <> "") (filter (fun p => negb (String.eqb p "")) l).
Proof.
  apply Forall_forall. intros p Hp. apply filter_In in Hp as [_ Hp].
  destruct (String.eqb_spec p ""); [discriminate | assumption].
Qed.

Lemma createDirectoryRecursive_ok (normalizePath : string -> string) (dirPath : string)
    (st : GenState) :
  exists st', createDirectoryRecursive normalizePath dirPath st = (Ok tt, st') /\
    vault_grows st st'.
Proof.
  destruct (createDirectoryLoop_ok normalizePath
              (filter (fun p => negb (String.eqb p "")) (split "/" dirPath)) "" st)
    as (st' & H1 & H2 & _).
  exists st'. split; assumption.
Qed.

Lemma ensureDirectoryExists_ok (normalizePath : string -> string) (filePath : string)
    (st : GenState) :
  exists st', ensureDirectoryExists normalizePath filePath st = (Ok tt, st') /\
    vault_grows st st'.
Proof.
  unfold ensureDirectoryExists.
  destruct (removelast (split "/" filePath)) as [|x r].
  - exists st. split; [reflexivity | apply vault_grows_refl].
  - unfold bind, existsM.
    destruct (vault_exists (normalizePath (join "/" (x :: r))) (vault st)).
    + exists st. split; [reflexivity | apply vault_grows_refl].
    + destruct (createDirectoryRecursive_ok normalizePath
                  (normalizePath (join "/" (x :: r))) st) as (st' & H1 & H2).
      exists st'. split; [|exact H2].
      unfold ignore_already_exists, catch. rewrite H1. reflexivity.
Qed.

Lemma split_no_sep (sep : ascii) (s : string) :
  ~ In sep (list_ascii_of_string s) -> split sep s = [s].
Proof.
  induction s as [|c s IH]; intros H; [reflexivity|].
  simpl in H. simpl. rewrite IH by tauto.
  destruct (Ascii.eqb_spec c sep) as [->|_]; [tauto | reflexivity].
Qed.

(** X14.  [createDirectoryRecursive] never throws when [createFolder] fails
    only on an existing path; it leaves the files as they are, removes no
    path, and afterwards every prefix [part1/.../partk] of the non-empty parts
    of [dirPath] exists (after [normalizePath]). *)
Theorem createDirectoryRecursive_prefixes (normalizePath : string -> string)
    (dirPath : string) (st : GenState) :
  let parts := filter (fun p => negb (String.eqb p "")) (split "/" dirPath) in
  exists st', createDirectoryRecursive normalizePath dirPath st = (Ok tt, st') /\
    files (vault st') = files (vault st) /\
    (forall p, vault_exists p (vault st) = true -> vault_exists p (vault st') = true) /\
    forall k, (1 <= k <= List.length parts)%nat ->
      vault_exists (normalizePath (join "/" (firstn k parts))) (vault st') = true.
Proof.
  intros parts.
  destruct (createDirectoryLoop_ok normalizePath parts "" st)
    as (st' & H1 & (F & E & _) & H3).
  exists st'. split; [exact H1|]. split; [exact F|]. split; [exact E|].
  intros k Hk. rewrite <- fold_next_path_firstn by
    (apply filter_nonempty_parts || lia).
  apply H3, Hk.
Qed.

(** X15.  [ensureDirectoryExists] never throws when [createFolder] fails
    only on an existing path; it leaves the files as they are and removes no
    path; and a path without [/] leaves the vault untouched. *)
Theorem ensureDirectoryExists_never_fails (normalizePath : string -> string)
    (filePath : string) (st : GenState) :
  exists st', ensureDirectoryExists normalizePath filePath st = (Ok tt, st') /\
    files (vault st') = files (vault st) /\
    (forall p, vault_exists p (vault st) = true -> vault_exists p (vault st') = true) /\
    (~ In "/"%char (list_ascii_of_string filePath) -> st' = st).
Proof.
  destruct (ensureDirectoryExists_ok normalizePath filePath st) as (st' & H1 & F & E & _).
  exists st'. split; [exact H1|]. split; [exact F|]. split; [exact E|].
  intros Hn. unfold ensureDirectoryExists in H1.
  rewrite split_no_sep in H1 by exact Hn.
  cbn in H1. injection H1 as ->. reflexivity.
Qed.

Section SaveFacts.

Variable date_parse : string -> option Z.
Variable jspdf_output : list DocOp -> Result Buffer.
Variable moment_format : Now -> string -> string.
Variable normalizePath : string -> string.
Variable now : Now.
Variable invoiceDate : string.


End SaveFacts.

(* ------------------------------------------------------------------ *)
(** ** Instances of the properties above *)

(** X9 witness: a header row and one task row indented by [2em]. *)
Lemma extract_parse_pipeline_witness :
  let rows := [[None];
               [Some (mkSpan "Design" "2em"); Some (mkSpan "24-06-15 09:30:00" "");
                Some (mkSpan "24-06-15 11:00:00" ""); None]] in
  let records := match extractDataFromTable iso_date_parse rows with
                 | Some r => r | None => [] end in
  extractDataFromTable iso_date_parse rows = Some records /\
  parseEnvelope iso_date_parse records <> [] /\
  map (fun p => (p_name p, p_startTime p, p_endTime p, p_level p))
      (parseEnvelope iso_date_parse records)
  = map (fun r => (rec_name r, rec_startTime r, rec_endTime r, 0)) records /\
  (forall settings flat, exists body,
     tableData iso_date_parse settings flat
       (map generatorEntry (parseEnvelope iso_date_parse records)) = Ok body /\
     map (fun row => nth 0 row (CStr "")) body
     = map (fun r => CStr (escapeText (rec_name r))) records) /\
  (forall settings options invoiceNumber invoiceDate, exists ops,
     addPDFContent iso_date_parse settings
       (map generatorEntry (parseEnvelope iso_date_parse records))
       options invoiceNumber invoiceDate = Ok ops).
Proof.
  intros rows records.
  assert (H : extractDataFromTable iso_date_parse rows = Some records) by reflexivity.
  split; [exact H|].
  exact (extract_parse_pipeline iso_date_parse rows records H).
Defined.

(** X11 witness: a task of 1.5 hours with a sub-task without times. *)
Lemma totals_agree_witness :
  let es := [mkRaw "Design" (Some "2024-06-15T09:30:00") (Some "2024-06-15T11:00:00")
               [mkRaw "Review" None None []]] in
  Forall (fun p => forall x, p_duration p = Some x -> (0 <= x <= inject_Z 8760)%Q)
         (processEntries iso_date_parse es 0) /\
  (calculateTotalHours iso_date_parse (map generatorEntry (processEntries iso_date_parse es 0))
   == getTotalHours (processEntries iso_date_parse es 0))%Q.
Proof.
  intros es.
  assert (Hr : Forall (fun p => forall x, p_duration p = Some x -> (0 <= x <= inject_Z 8760)%Q)
                      (processEntries iso_date_parse es 0)).
  { apply Forall_forall. intros p Hp x Hx. subst es. simpl in Hp.
    destruct Hp as [<-|[<-|[]]]; vm_compute in Hx; injection Hx as <-;
      split; apply Qle_bool_imp_le; reflexivity. }
  split; [exact Hr|]. exact (totals_agree iso_date_parse es 0 Hr).
Defined.


(** X8 witness: a flat rate of 500 for one task. *)
Lemma flat_summary_witness :
  let entries := [mkEntry "Design" (Some "2024-06-15T09:30:00") (Some "2024-06-15T11:00:00")
                    (Some 0)] in
  let ops := match addPDFContent iso_date_parse DEFAULT_SETTINGS entries
                     {| flatRateAmount := Some (JFin 500) |} "2024-06-15-0042" "6/15/2024" with
             | Ok ops => ops | Err _ => [] end in
  addPDFContent iso_date_parse DEFAULT_SETTINGS entries {| flatRateAmount := Some (JFin 500) |}
    "2024-06-15-0042" "6/15/2024" = Ok ops /\
  exists body T,
    In (AutoTable ["Task"; "Start Time"; "End Time"; "Hours"; "Rate"; "Amount"] body 70) ops /\
    In (TextAt (CFixed2 (JFin T)) 190 (AfterTable 0) true) ops /\
    In (TextAt (CFixed2 (JFin 500)) 190 (AfterTable 7) true) ops /\
    In (TextAt (CFixed2 (JFin 500)) 190 (AfterTable 20) true) ops /\
    map (fun row => nth 3 row (CStr "")) body
    = map (fun e => CFixed2 (JFin (calculateEntryDuration iso_date_parse e))) entries /\
    Forall (fun row => skipn 4 row = [CStr "-"; CStr "-"]) body /\
    (T == fold_right Qplus 0 (map (calculateEntryDuration iso_date_parse) entries))%Q.
Proof.
  intros entries ops.
  assert (Hops : addPDFContent iso_date_parse DEFAULT_SETTINGS entries
                   {| flatRateAmount := Some (JFin 500) |} "2024-06-15-0042" "6/15/2024"
                 = Ok ops) by reflexivity.
  split; [exact Hops|].
  exact (flat_summary iso_date_parse DEFAULT_SETTINGS entries "2024-06-15-0042" "6/15/2024"
           (JFin 500) ops Hops).
Defined.

(** X13 witness: from the default settings, a [NaN] rate, a negative rate
    and an emptied directory field, then a rate of 80. *)
Lemma settings_edits_invariant_witness :
  let edits := [EditHourlyRate JNaN; EditHourlyRate (JFin (-5)); EditInvoiceDirectory "";
                EditCompanyName "Acme"; EditHourlyRate (JFin 80)] in
  js_isNaN (hourlyRate DEFAULT_SETTINGS) = false /\
  js_ge0 (hourlyRate DEFAULT_SETTINGS) = true /\
  invoiceDirectory DEFAULT_SETTINGS <> "" /\
  js_isNaN (hourlyRate (settings_edits edits DEFAULT_SETTINGS)) = false /\
  js_ge0 (hourlyRate (settings_edits edits DEFAULT_SETTINGS)) = true /\
  invoiceDirectory (settings_edits edits DEFAULT_SETTINGS) <> "" /\
  companyLogo (settings_edits edits DEFAULT_SETTINGS) = companyLogo DEFAULT_SETTINGS.
Proof.
  intros edits.
  assert (Hn : js_isNaN (hourlyRate DEFAULT_SETTINGS) = false) by reflexivity.
  assert (Hg : js_ge0 (hourlyRate DEFAULT_SETTINGS) = true) by reflexivity.
  assert (Hd : invoiceDirectory DEFAULT_SETTINGS <> "") by discriminate.
  split; [exact Hn|]. split; [exact Hg|]. split; [exact Hd|].
  exact (settings_edits_invariant edits DEFAULT_SETTINGS Hn Hg Hd).
Defined.

